(** * SustentaM: the login form and the seat-icon demo screen

    A shallow embedding of
      - [LoginForm] (components/auth/LoginForm.tsx): the zod schema, the
        [onSubmit] handler and the parts of the rendered view that depend
        on the component's state;
      - [SeatIconDemo] (components/demo/SeatIconDemo.tsx): the properties
        handed to every [SeatIcon] and the click handler.

    The asynchronous handler is written in a small monad of effect trees:
    a program is a tree whose nodes are the calls the handler makes to its
    collaborators (logger, React state setters, [validarRUT], [login]).
    JavaScript strings are [string], JavaScript numbers that only ever hold
    small integers are [Z]. *)

From Stdlib Require Import String Ascii List ZArith Bool Lia.
From Stdlib Require Import DecimalString.
Import ListNotations.

Local Open Scope string_scope.
Local Open Scope list_scope.

(* ================================================================== *)
(** ** JavaScript control effects *)
(* ================================================================== *)

Module JS.

(** A thrown value. The handler never inspects it. *)
Definition JsError : Type := string.

(** How a promise settles. *)
Inductive Settled (A : Type) : Type :=
| Resolved (a : A)
| Rejected (e : JsError).
Arguments Resolved {A} a.
Arguments Rejected {A} e.

(** [logger.info], [logger.warn], [logger.debug], [logger.error] *)
Inductive LogLevel : Type := info | warn | debug | error.

(** Third argument of a logger call. *)
Inductive Payload : Type :=
| NoPayload
| Obj (fields : list (string * string))
| Thrown (e : JsError).

(** [{ valido, mensaje }], the result of [validarRUT]. *)
Record RutResult : Type := { valido : bool; mensaje : string }.

(** Fire-and-forget calls: the logger and the [useState] setters of
    [LoginForm], and the update of react-hook-form's [formState.errors]. *)
Inductive Action : Type :=
| Log (lvl : LogLevel) (scope msg : string) (payload : Payload)
| SetLoading (b : bool)
| SetAuthError (s : string)
| SetFieldErrors (usuario clave : option string).

(** One entry of the observable trace of a handler. *)
Inductive Event : Type :=
| EvAction (a : Action)
| EvValidarRUT (rut : string)
| EvLogin (usuario clave : string).

(** Effect trees. [Await] is the one suspension point: the continuation
    receives the way the promise returned by [login] settled. *)
Inductive Prog (A : Type) : Type :=
| Ret (a : A)
| Throw (e : JsError)
| Do (a : Action) (k : Prog A)
| CallValidarRUT (rut : string) (k : RutResult -> Prog A)
| Await (usuario clave : string) (k : Settled bool -> Prog A).
Arguments Ret {A} a.
Arguments Throw {A} e.
Arguments Do {A} a k.
Arguments CallValidarRUT {A} rut k.
Arguments Await {A} usuario clave k.

Fixpoint bind {A B : Type} (p : Prog A) (f : A -> Prog B) : Prog B :=
  match p with
  | Ret a => f a
  | Throw e => Throw e
  | Do a k => Do a (bind k f)
  | CallValidarRUT rut k => CallValidarRUT rut (fun r => bind (k r) f)
  | Await u c k => Await u c (fun o => bind (k o) f)
  end.

(** [try { p } catch (error) { h error }] *)
Fixpoint tryCatch {A : Type} (p : Prog A) (h : JsError -> Prog A) : Prog A :=
  match p with
  | Ret a => Ret a
  | Throw e => h e
  | Do a k => Do a (tryCatch k h)
  | CallValidarRUT rut k => CallValidarRUT rut (fun r => tryCatch (k r) h)
  | Await u c k => Await u c (fun o => tryCatch (k o) h)
  end.

(** [try { p } finally { fin }]: [fin] runs on both exits, and the
    completion of [p] is kept unless [fin] itself throws. *)
Fixpoint tryFinally {A : Type} (p : Prog A) (fin : Prog unit) : Prog A :=
  match p with
  | Ret a => bind fin (fun _ => Ret a)
  | Throw e => bind fin (fun _ => Throw e)
  | Do a k => Do a (tryFinally k fin)
  | CallValidarRUT rut k => CallValidarRUT rut (fun r => tryFinally (k r) fin)
  | Await u c k => Await u c (fun o => tryFinally (k o) fin)
  end.

Definition perform (a : Action) : Prog unit := Do a (Ret tt).

(** [await login(usuario, clave)]: a rejected promise is rethrown at the
    await. *)
Definition await_login (usuario clave : string) : Prog bool :=
  Await usuario clave
    (fun o => match o with Resolved b => Ret b | Rejected e => Throw e end).

Definition call_validarRUT (rut : string) : Prog RutResult :=
  CallValidarRUT rut (fun r => Ret r).

End JS.
Import JS.

Declare Scope prog_scope.
Delimit Scope prog_scope with prog.
Notation "x <- c1 ;; c2" := (bind c1 (fun x => c2))
  (at level 61, c1 at next level, right associativity) : prog_scope.
Notation "c1 ;; c2" := (bind c1 (fun _ => c2))
  (at level 61, right associativity) : prog_scope.
Notation "'try' p 'catch' h 'finally' f" := (tryFinally (tryCatch p h) f)
  (at level 62, p at level 61, h at level 61, f at level 61) : prog_scope.

(* ================================================================== *)
(** ** LoginForm *)
(* ================================================================== *)

Module LoginForm.

(** [type LoginFormData = z.infer<typeof loginSchema>] *)
Record LoginFormData : Type := { usuario : string; clave : string }.

(** *** The schema *)

(** [z.string().min(n, msg)] *)
Record ZString : Type := z_string_min { min_length : nat; min_message : string }.

(** The issue zod reports for a string, if any. With [n = 1] the test is
    whether the string is empty, whatever the unit its length is counted
    in. *)
Definition z_issue (rule : ZString) (s : string) : option string :=
  if (String.length s <? min_length rule)%nat then Some (min_message rule) else None.

Record LoginSchema : Type := { usuario_rule : ZString; clave_rule : ZString }.

Definition loginSchema : LoginSchema :=
  {| usuario_rule := z_string_min 1 "Usuario requerido";
     clave_rule := z_string_min 1 "Clave requerida" |}.

(** [formState.errors]: [errors.usuario?.message], [errors.clave?.message]. *)
Record FieldErrors : Type :=
  { usuario_error : option string; clave_error : option string }.

Definition no_errors : FieldErrors :=
  {| usuario_error := None; clave_error := None |}.

(** [zodResolver(loginSchema)]: every field is checked, each failing
    field gets its own message. *)
Definition zodResolver (schema : LoginSchema) (data : LoginFormData) : FieldErrors :=
  {| usuario_error := z_issue (usuario_rule schema) (usuario data);
     clave_error := z_issue (clave_rule schema) (clave data) |}.

Definition has_errors (e : FieldErrors) : bool :=
  match usuario_error e, clave_error e with
  | None, None => false
  | _, _ => true
  end.

(** *** The submit handler *)

Definition onSubmit (data : LoginFormData) : Prog unit :=
  (perform (Log info "LoginForm" "Intento de login iniciado"
                (Obj [("usuario", usuario data)])) ;;
   perform (SetLoading true) ;;
   perform (SetAuthError "") ;;
   r <- call_validarRUT (usuario data) ;;
   if negb (valido r) then
     perform (Log warn "LoginForm" "RUT inválido"
                  (Obj [("rut", usuario data); ("mensaje", mensaje r)])) ;;
     perform (SetAuthError ("RUT inválido: " ++ mensaje r)) ;;
     perform (SetLoading false) ;;
     Ret tt
   else
     try
       (perform (Log debug "LoginForm" "Llamando función login del store" NoPayload) ;;
        success <- await_login (usuario data) (clave data) ;;
        if success : bool then
          perform (Log info "LoginForm" "Login exitoso" NoPayload)
        else
          perform (Log warn "LoginForm" "Login fallido - credenciales incorrectas"
                       NoPayload) ;;
          perform (SetAuthError "Usuario o clave incorrectos"))
     catch
       (fun err =>
          perform (Log error "LoginForm" "Error durante el login" (Thrown err)) ;;
          perform (SetAuthError "Error al iniciar sesión"))
     finally
       (perform (SetLoading false)))%prog.

(** [handleSubmit(onSubmit)] of react-hook-form with the zod resolver:
    the resolver runs on the current field values; with errors they are
    published in [formState.errors] and the handler is not called,
    without errors the errors are cleared and the handler runs. *)
Definition handleSubmit (onValid : LoginFormData -> Prog unit)
           (data : LoginFormData) : Prog unit :=
  let errors := zodResolver loginSchema data in
  (perform (SetFieldErrors (usuario_error errors) (clave_error errors)) ;;
   if has_errors errors then Ret tt else onValid data)%prog.

(** *** Component state *)

(** The four [useState] cells of the component. *)
Record Hooks : Type :=
  { showPassword : bool;
    authError : string;
    loading : bool;
    showForgotTooltip : bool }.

(** What the component re-renders from: its hooks and [formState.errors]. *)
Record Store : Type := { hooks : Hooks; errors : FieldErrors }.

Definition initialStore : Store :=
  {| hooks := {| showPassword := false; authError := ""; loading := false;
                 showForgotTooltip := false |};
     errors := no_errors |}.

Definition setLoading (b : bool) (s : Store) : Store :=
  {| hooks := {| showPassword := showPassword (hooks s);
                 authError := authError (hooks s);
                 loading := b;
                 showForgotTooltip := showForgotTooltip (hooks s) |};
     errors := errors s |}.

Definition setAuthError (msg : string) (s : Store) : Store :=
  {| hooks := {| showPassword := showPassword (hooks s);
                 authError := msg;
                 loading := loading (hooks s);
                 showForgotTooltip := showForgotTooltip (hooks s) |};
     errors := errors s |}.

Definition setShowPassword (b : bool) (s : Store) : Store :=
  {| hooks := {| showPassword := b;
                 authError := authError (hooks s);
                 loading := loading (hooks s);
                 showForgotTooltip := showForgotTooltip (hooks s) |};
     errors := errors s |}.

Definition setShowForgotTooltip (b : bool) (s : Store) : Store :=
  {| hooks := {| showPassword := showPassword (hooks s);
                 authError := authError (hooks s);
                 loading := loading (hooks s);
                 showForgotTooltip := b |};
     errors := errors s |}.

Definition apply_action (a : Action) (s : Store) : Store :=
  match a with
  | Log _ _ _ _ => s
  | SetLoading b => setLoading b s
  | SetAuthError msg => setAuthError msg s
  | SetFieldErrors u c =>
      {| hooks := hooks s; errors := {| usuario_error := u; clave_error := c |} |}
  end.

(** *** Running a handler *)

(** Where a handler stands when control goes back to the event loop. *)
Inductive Outcome (A : Type) : Type :=
| Finished (r : Settled A)
| Suspended (usuario clave : string) (k : Settled bool -> Prog A).
Arguments Finished {A} r.
Arguments Suspended {A} usuario clave k.

Section Run.

(** [validarRUT] of lib/validations, a pure function of the candidate
    string. *)
Variable validarRUT : string -> RutResult.

(** Runs a handler up to its end or to the first [await]. *)
Fixpoint exec {A : Type} (p : Prog A) (s : Store)
  : Store * list Event * Outcome A :=
  match p with
  | Ret a => (s, [], Finished (Resolved a))
  | Throw e => (s, [], Finished (Rejected e))
  | Do a k =>
      let '(s', tr, o) := exec k (apply_action a s) in
      (s', EvAction a :: tr, o)
  | CallValidarRUT rut k =>
      let '(s', tr, o) := exec (k (validarRUT rut)) s in
      (s', EvValidarRUT rut :: tr, o)
  | Await u c k => (s, [EvLogin u c], Suspended u c k)
  end.

(** [login] of the auth store, as the way its promise settles. *)
Variable login : string -> string -> Settled bool.

(** Runs a handler to its end, every [await] answered by [login]. *)
Fixpoint run {A : Type} (p : Prog A) (s : Store)
  : Store * list Event * Settled A :=
  match p with
  | Ret a => (s, [], Resolved a)
  | Throw e => (s, [], Rejected e)
  | Do a k =>
      let '(s', tr, r) := run k (apply_action a s) in
      (s', EvAction a :: tr, r)
  | CallValidarRUT rut k =>
      let '(s', tr, r) := run (k (validarRUT rut)) s in
      (s', EvValidarRUT rut :: tr, r)
  | Await u c k =>
      let '(s', tr, r) := run (k (login u c)) s in
      (s', EvLogin u c :: tr, r)
  end.

End Run.

(** *** Trace observations *)

(** The calls made to [login], in order, with their arguments. *)
Fixpoint login_calls (tr : list Event) : list (string * string) :=
  match tr with
  | [] => []
  | EvLogin u c :: tr' => (u, c) :: login_calls tr'
  | _ :: tr' => login_calls tr'
  end.

(** The candidates handed to [validarRUT], in order. *)
Fixpoint validarRUT_calls (tr : list Event) : list string :=
  match tr with
  | [] => []
  | EvValidarRUT rut :: tr' => rut :: validarRUT_calls tr'
  | _ :: tr' => validarRUT_calls tr'
  end.

(** The store as it stands when a handler makes its first call to
    [validarRUT]; [None] for a handler that ends or suspends without
    calling it. *)
Fixpoint store_at_validation {A : Type} (p : Prog A) (s : Store) : option Store :=
  match p with
  | Ret _ => None
  | Throw _ => None
  | Do a k => store_at_validation k (apply_action a s)
  | CallValidarRUT _ _ => Some s
  | Await _ _ _ => None
  end.

(** The successive values written to [loading]. *)
Fixpoint loading_writes (tr : list Event) : list bool :=
  match tr with
  | [] => []
  | EvAction (SetLoading b) :: tr' => b :: loading_writes tr'
  | _ :: tr' => loading_writes tr'
  end.

(** The successive values written to [authError]. *)
Fixpoint authError_writes (tr : list Event) : list string :=
  match tr with
  | [] => []
  | EvAction (SetAuthError m) :: tr' => m :: authError_writes tr'
  | _ :: tr' => authError_writes tr'
  end.

(** *** The rendered view *)

(** Properties handed to the submit [Button] (lines 129-137). *)
Record ButtonProps : Type :=
  { button_type : string; variant : string; button_size : string;
    button_loading : bool }.

(** Modelled from the spec: the [Button] widget (components/ui/Button) is
    not under src/. The spec says of the submitting state that it
    "disables interaction, shows a loading affordance" and that "while
    pending, the submit control is disabled": a button whose [loading]
    property is set is disabled and shows the affordance, and a button
    that is not loading is enabled. *)
Record ButtonView : Type := { disabled : bool; loading_affordance : bool }.

Definition Button (p : ButtonProps) : ButtonView :=
  {| disabled := button_loading p; loading_affordance := button_loading p |}.

(** The state-dependent parts of what [LoginForm] returns. *)
Record View : Type :=
  { usuario_input_error : option string;       (* error={errors.usuario?.message} *)
    clave_input_error : option string;         (* error={errors.clave?.message} *)
    clave_input_type : string;                 (* showPassword ? 'text' : 'password' *)
    alert : option string;                     (* {authError && <div role="alert">} *)
    submit : ButtonProps;
    tooltip_visible : bool }.

Definition render (s : Store) : View :=
  {| usuario_input_error := usuario_error (errors s);
     clave_input_error := clave_error (errors s);
     clave_input_type := if showPassword (hooks s) then "text" else "password";
     alert := if (authError (hooks s) =? "")%string then None
              else Some (authError (hooks s));
     submit := {| button_type := "submit"; variant := "primary";
                  button_size := "lg";
                  button_loading := loading (hooks s) |};
     tooltip_visible := showForgotTooltip (hooks s) |}.

(** *** The form as a transition system *)

(** The mounted component between two turns of the event loop: the field
    values held by react-hook-form, the store, the handler suspended at
    its [await] (if any), and everything the handlers did so far. *)
Record Form : Type :=
  { values : LoginFormData;
    store : Store;
    pending : option (Settled bool -> Prog unit);
    history : list Event }.

(** [useForm] is given no default values: the inputs start empty. *)
Definition mount : Form :=
  {| values := {| usuario := ""; clave := "" |};
     store := initialStore; pending := None; history := [] |}.

Definition resume (f : Form) (r : Store * list Event * Outcome unit) : Form :=
  let '(s, tr, o) := r in
  {| values := values f;
     store := s;
     pending := match o with
                | Suspended _ _ k => Some k
                | Finished _ => None
                end;
     history := history f ++ tr |}.

Definition with_values (data : LoginFormData) (f : Form) : Form :=
  {| values := data; store := store f; pending := pending f;
     history := history f |}.

Definition with_store (s : Store) (f : Form) : Form :=
  {| values := values f; store := s; pending := pending f;
     history := history f |}.

Section Machine.

Variable validarRUT : string -> RutResult.

(** The form's [onSubmit={handleSubmit(onSubmit)}]. *)
Definition submitForm (f : Form) : Form :=
  resume f (exec validarRUT (handleSubmit onSubmit (values f)) (store f)).

(** The promise of [login] settles and the suspended handler goes on. *)
Definition settle (k : Settled bool -> Prog unit) (o : Settled bool)
           (f : Form) : Form :=
  resume f (exec validarRUT (k o) (store f)).

(** What can happen to the mounted form. *)
Inductive Input : Type :=
| change (data : LoginFormData)       (* typing in a registered input *)
| toggle_password                     (* the eye button *)
| tooltip (b : bool)                  (* mouse enter, leave, click, timeout *)
| click_submit                        (* the submit control *)
| login_settles (o : Settled bool).   (* the promise of [login] settles *)

Inductive step : Form -> Input -> Form -> Prop :=
| step_change (f : Form) (data : LoginFormData) :
    step f (change data) (with_values data f)
| step_toggle_password (f : Form) :
    (* onClick={() => setShowPassword(!showPassword)} *)
    step f toggle_password
         (with_store
            (setShowPassword (negb (showPassword (hooks (store f)))) (store f)) f)
| step_tooltip (f : Form) (b : bool) :
    step f (tooltip b) (with_store (setShowForgotTooltip b (store f)) f)
| step_submit (f : Form) :
    (* a submission can only start from an enabled submit control *)
    disabled (Button (submit (render (store f)))) = false ->
    step f click_submit (submitForm f)
| step_settle (f : Form) (k : Settled bool -> Prog unit) (o : Settled bool) :
    pending f = Some k ->
    step f (login_settles o) (settle k o f).

Inductive reachable : Form -> Prop :=
| reachable_mount : reachable mount
| reachable_step (f : Form) (i : Input) (f' : Form) :
    reachable f -> step f i f' -> reachable f'.

End Machine.

(** The three observable states of a submission attempt. *)
Inductive Phase : Type := idle | submitting | settled.

(** The phases an attempt goes through, read off the writes to [loading]:
    it starts idle, a write of [true] enters submitting, a write of
    [false] enters settled. *)
Definition phases (tr : list Event) : list Phase :=
  idle :: map (fun b : bool => if b then submitting else settled)
             (loading_writes tr).

(** The input fields hold nothing any more. *)
Definition form_cleared (f : Form) : Prop :=
  values f = {| usuario := ""; clave := "" |}.

(** The three banners [onSubmit] can set. *)
Definition rut_banner (mensaje : string) : string := "RUT inválido: " ++ mensaje.
Definition credentials_banner : string := "Usuario o clave incorrectos".
Definition generic_banner : string := "Error al iniciar sesión".

(** What is left of the handler once [login] has settled. *)
Definition after_login (o : Settled bool) : Prog unit :=
  match o with
  | Resolved true =>
      Do (Log info "LoginForm" "Login exitoso" NoPayload)
         (Do (SetLoading false) (Ret tt))
  | Resolved false =>
      Do (Log warn "LoginForm" "Login fallido - credenciales incorrectas" NoPayload)
         (Do (SetAuthError credentials_banner)
             (Do (SetLoading false) (Ret tt)))
  | Rejected e =>
      Do (Log error "LoginForm" "Error durante el login" (Thrown e))
         (Do (SetAuthError generic_banner)
             (Do (SetLoading false) (Ret tt)))
  end.

(** What holds of the handler suspended in a form, and of [loading]
    when there is none. *)
Definition form_invariant (f : Form) : Prop :=
  match pending f with
  | Some k => loading (hooks (store f)) = true /\ forall o, k o = after_login o
  | None => loading (hooks (store f)) = false
  end.

(** Components of the result of [exec] and [run]. *)
Definition final_store {A : Type} (r : Store * list Event * A) : Store :=
  fst (fst r).
Definition trace {A : Type} (r : Store * list Event * A) : list Event :=
  snd (fst r).
Definition completion {A : Type} (r : Store * list Event * A) : A := snd r.

(** *** A sample collaborator *)

Definition is_digit (c : ascii) : bool :=
  let n := nat_of_ascii c in ((48 <=? n) && (n <=? 57))%nat.

Definition is_check_character (c : ascii) : bool :=
  is_digit c || (c =? "k")%char || (c =? "K")%char.

Fixpoint rut_shape (seen_digit : bool) (s : string) : bool :=
  match s with
  | EmptyString => false
  | String c rest =>
      match rest with
      | String d EmptyString =>
          (c =? "-")%char && seen_digit && is_check_character d
      | _ => is_digit c && rut_shape true rest
      end
  end.

(** Modelled from the spec: [validarRUT] (lib/validations) is not under
    src/. The spec describes a check that the candidate is "digits plus
    a trailing check character" and its glossary gives the format
    NNNNNNNN-C; this sample checks that shape and nothing more (the spec
    does not describe the check-digit arithmetic), and the message text
    is its own. It only instantiates the collaborator in the examples:
    the theorems hold for every [validarRUT]. *)
Definition validarRUT_formato (rut : string) : RutResult :=
  if rut_shape false rut
  then {| valido := true; mensaje := "" |}
  else {| valido := false; mensaje := "formato NNNNNNNN-C esperado" |}.

End LoginForm.

(* ================================================================== *)
(** ** SeatIconDemo *)
(* ================================================================== *)

Module SeatIconDemo.

Local Open Scope Z_scope.

Inductive SeatStatus : Type := available | occupied | total.
Inductive SeatSize : Type := sm | md | lg.

(** [selectedSeat] of the component, and what it wrote to the console. *)
Record DemoState : Type :=
  { selectedSeat : option Z; console : list string }.

Definition initialDemoState : DemoState :=
  {| selectedSeat := None; console := [] |}.

(** [`${seatNumber}`] *)
Definition number_to_string (n : Z) : string :=
  NilZero.string_of_int (Z.to_int n).

Definition handleSeatClick (seatNumber : Z) (st : DemoState) : DemoState :=
  {| selectedSeat := Some seatNumber;
     console := console st ++
                [("Butaca " ++ number_to_string seatNumber ++ " seleccionada")%string] |}.

(** The properties a [SeatIcon] element is created with; a property the
    element does not set is [None]. *)
Record SeatIconProps : Type :=
  { number : option Z;
    status : SeatStatus;
    size : SeatSize;
    showNumber : option bool;
    onClick : option (DemoState -> DemoState) }.

(** [Array.from({ length }, (_, i) => f i)] *)
Definition Array_from {A : Type} (length : nat) (f : Z -> A) : list A :=
  map (fun i => f (Z.of_nat i)) (seq 0 length).

(** Lines 83-85: the icons shown without numbers. *)
Definition sinNumeros : list SeatIconProps :=
  [ {| number := None; status := available; size := md;
       showNumber := Some false; onClick := None |};
    {| number := None; status := occupied; size := md;
       showNumber := Some false; onClick := None |};
    {| number := None; status := total; size := md;
       showNumber := Some false; onClick := None |} ].

(** Lines 128-144: "Simulación: Aula Presencial (30 butacas)". *)
Definition aulaPresencial : list (list SeatIconProps) :=
  Array_from 5 (fun row =>
    Array_from 6 (fun seat =>
      let seatNumber := row * 6 + seat + 1 in
      let isOccupied := seatNumber <=? 18 in
      {| number := Some seatNumber;
         status := if isOccupied then occupied else available;
         size := md;
         showNumber := None;
         onClick := if negb isOccupied then Some (handleSeatClick seatNumber)
                    else None |})).

(** Lines 159-175: "Simulación: Curso Online (200 butacas)". *)
Definition cursoOnline : list (list SeatIconProps) :=
  Array_from 10 (fun row =>
    Array_from 20 (fun seat =>
      let seatNumber := row * 20 + seat + 1 in
      let isOccupied := seatNumber <=? 150 in
      {| number := Some seatNumber;
         status := if isOccupied then occupied else available;
         size := sm;
         showNumber := None;
         onClick := if negb isOccupied then Some (handleSeatClick seatNumber)
                    else None |})).

(** The element at a row and a position of a grid. *)
Definition cell (grid : list (list SeatIconProps)) (row seat : nat)
  : option SeatIconProps :=
  match nth_error grid row with
  | Some r => nth_error r seat
  | None => None
  end.

(** The seat numbers of a grid in reading order. *)
Definition numbers (grid : list (list SeatIconProps)) : list (option Z) :=
  map number (concat grid).

(** [1; 2; ...; n] *)
Definition one_to (n : nat) : list (option Z) :=
  map (fun i => Some (Z.of_nat i)) (seq 1 n).

(** A seat the demo shows as taken: no click handler is attached. *)
Definition shown_occupied (p : SeatIconProps) : Prop :=
  status p = occupied /\ onClick p = None.

(** A seat the demo shows as free: its click handler selects seat [n]. *)
Definition shown_available (n : Z) (p : SeatIconProps) : Prop :=
  status p = available /\
  exists h, onClick p = Some h /\
            forall st, selectedSeat (h st) = Some n.

(** The shape the two simulated grids share, for the proofs: [rows] rows
    of [cols] seats, the first [threshold] seats taken. *)
Definition simulated_seat (cols threshold : Z) (sz : SeatSize) (row seat : Z)
  : SeatIconProps :=
  let seatNumber := row * cols + seat + 1 in
  let isOccupied := seatNumber <=? threshold in
  {| number := Some seatNumber;
     status := if isOccupied then occupied else available;
     size := sz;
     showNumber := None;
     onClick := if negb isOccupied then Some (handleSeatClick seatNumber)
                else None |}.

Definition simulated_grid (rows cols : nat) (threshold : Z) (sz : SeatSize)
  : list (list SeatIconProps) :=
  Array_from rows (fun row =>
    Array_from cols (fun seat =>
      simulated_seat (Z.of_nat cols) threshold sz row seat)).

Section SeatIcon.

(** What an icon does when [showNumber] is not passed; the spec does
    not say. *)
Variable showNumber_default : bool.

(** Modelled from the spec: the [SeatIcon] widget
    (components/ui/SeatIcon) is not under src/. The spec describes its
    properties as an "optional numeric label" and "a boolean for
    whether to render the number": the label shown is the [number]
    property when that boolean is set, and nothing otherwise. *)
Definition SeatIcon_label (p : SeatIconProps) : option Z :=
  let show := match showNumber p with
              | Some b => b
              | None => showNumber_default
              end in
  if show then number p else None.

End SeatIcon.

End SeatIconDemo.

(* ================================================================== *)
(** ** The rest of the two components *)
(* ================================================================== *)

Module LoginFormHistory.

Import LoginForm.

(** The logger calls of a trace, in order. *)
Fixpoint logged (tr : list Event) : list Action :=
  match tr with
  | [] => []
  | EvAction (Log lvl scope msg payload) :: tr' =>
      Log lvl scope msg payload :: logged tr'
  | _ :: tr' => logged tr'
  end.

(** Whether a call to [login] is still unanswered at the end of a trace:
    a call opens the wait, the [finally] of the handler
    ([setLoading(false)]) closes it. *)
Fixpoint awaiting_after (awaiting : bool) (tr : list Event) : bool :=
  match tr with
  | [] => awaiting
  | EvLogin _ _ :: tr' => awaiting_after true tr'
  | EvAction (SetLoading false) :: tr' => awaiting_after false tr'
  | _ :: tr' => awaiting_after awaiting tr'
  end.

(** No call to [login] is made while an earlier one is unanswered. *)
Fixpoint calls_in_turn (awaiting : bool) (tr : list Event) : bool :=
  match tr with
  | [] => true
  | EvLogin _ _ :: tr' => negb awaiting && calls_in_turn true tr'
  | EvAction (SetLoading false) :: tr' => calls_in_turn false tr'
  | _ :: tr' => calls_in_turn awaiting tr'
  end.

(** Credentials that went through both validation layers. *)
Definition validated (validarRUT : string -> RutResult)
           (call : string * string) : Prop :=
  fst call <> "" /\ snd call <> "" /\ valido (validarRUT (fst call)) = true.

(** A session used in the examples: a RUT and a password are typed, the
    form is submitted, and the [login] call settles with [o]. *)
Definition typed_form : Form :=
  with_values {| usuario := "12345678-5"; clave := "user123" |} mount.

Definition waiting_form : Form := submitForm validarRUT_formato typed_form.

Definition settled_form (o : Settled bool) : Form :=
  match pending waiting_form with
  | Some k => settle validarRUT_formato k o waiting_form
  | None => waiting_form
  end.

End LoginFormHistory.

Module SeatIconDemoScreen.

Import SeatIconDemo.
Local Open Scope Z_scope.

(** Lines 29-39: "Estados de Butacas". *)
Definition estados : list SeatIconProps :=
  [ {| number := Some 1; status := available; size := lg;
       showNumber := Some true; onClick := None |};
    {| number := Some 2; status := occupied; size := lg;
       showNumber := Some true; onClick := None |};
    {| number := Some 30; status := total; size := lg;
       showNumber := Some true; onClick := None |} ].

(** Lines 51-61: "Tamaños Disponibles". *)
Definition tamanos : list SeatIconProps :=
  [ {| number := Some 5; status := available; size := sm;
       showNumber := Some true; onClick := None |};
    {| number := Some 15; status := available; size := md;
       showNumber := Some true; onClick := None |};
    {| number := Some 25; status := available; size := lg;
       showNumber := Some true; onClick := None |} ].

(** Lines 75-77: "Con Números". *)
Definition conNumeros : list SeatIconProps :=
  [ {| number := Some 1; status := available; size := md;
       showNumber := Some true; onClick := None |};
    {| number := Some 2; status := occupied; size := md;
       showNumber := Some true; onClick := None |};
    {| number := Some 3; status := total; size := md;
       showNumber := Some true; onClick := None |} ].

(** An element with its [key] and [className] next to its properties. *)
Record SeatIconElement : Type :=
  { key : Z; props : SeatIconProps; className : string }.

(** [selectedSeat === num], with [selectedSeat : number | null]. *)
Definition selected_is (st : DemoState) (num : Z) : bool :=
  match selectedSeat st with
  | Some n => n =? num
  | None => false
  end.

(** Lines 99-109: the row of "Interactividad". *)
Definition interactividad (st : DemoState) : list SeatIconElement :=
  map (fun num =>
         {| key := num;
            props := {| number := Some num; status := available; size := md;
                        showNumber := Some true;
                        onClick := Some (handleSeatClick num) |};
            className := if selected_is st num
                         then "ring-2 ring-blue-500 ring-offset-2"
                         else "" |})
      [10; 11; 12; 13; 14].

(** What [{selectedSeat && (...)}] of lines 111-117 renders: nothing for
    [null], the bare number for 0 (a falsy number is rendered as text),
    the panel with its sentence otherwise. *)
Inductive SelectionPanel : Type :=
| no_panel
| bare_zero
| panel (sentence : string).

Definition selection_panel (st : DemoState) : SelectionPanel :=
  match selectedSeat st with
  | None => no_panel
  | Some n =>
      if n =? 0 then bare_zero
      else panel ("¡Butaca " ++ number_to_string n ++ " seleccionada!")%string
  end.

(** Every [SeatIcon] of the screen, in document order. *)
Definition icons (st : DemoState) : list SeatIconProps :=
  estados ++ tamanos ++ conNumeros ++ sinNumeros ++
  map props (interactividad st) ++
  concat aulaPresencial ++ concat cursoOnline.

Definition is_occupied (p : SeatIconProps) : bool :=
  match status p with occupied => true | _ => false end.

Definition is_clickable (p : SeatIconProps) : bool :=
  match onClick p with Some _ => true | None => false end.

(** The text under a simulated grid, as the counts of a grid would
    spell it. *)
Definition caption_of (grid : list (list SeatIconProps)) : string :=
  (number_to_string (Z.of_nat (length (filter is_occupied (concat grid))))
   ++ " ocupadas, "
   ++ number_to_string (Z.of_nat (length (filter is_clickable (concat grid))))
   ++ " disponibles")%string.

(** The heading over a simulated grid, as its size would spell it. *)
Definition heading_of (name : string) (grid : list (list SeatIconProps)) : string :=
  ("Simulación: " ++ name ++ " ("
   ++ number_to_string (Z.of_nat (length (concat grid))) ++ " butacas)")%string.

(** Lines 123-125 and 146-148. *)
Definition aulaPresencial_heading : string :=
  "Simulación: Aula Presencial (30 butacas)".
Definition aulaPresencial_caption : string := "18 ocupadas, 12 disponibles".

(** Lines 154-156 and 177-179. *)
Definition cursoOnline_heading : string :=
  "Simulación: Curso Online (200 butacas)".
Definition cursoOnline_caption : string := "150 ocupadas, 50 disponibles".

End SeatIconDemoScreen.

(* ================================================================== *)
(** ** The submit handler, path by path *)
(* ================================================================== *)

Import LoginForm.

Section OnSubmitPaths.

Variable validarRUT : string -> RutResult.
Variable data : LoginFormData.
Variable s : Store.

Let started : Store := setAuthError "" (setLoading true s).

Let opening : list Event :=
  [ EvAction (Log info "LoginForm" "Intento de login iniciado"
                  (Obj [("usuario", usuario data)]));
    EvAction (SetLoading true);
    EvAction (SetAuthError "");
    EvValidarRUT (usuario data) ].

(** The RUT is rejected: the handler ends without suspending. *)
Lemma exec_onSubmit_rejected :
  valido (validarRUT (usuario data)) = false ->
  exec validarRUT (onSubmit data) s =
  (setLoading false
     (setAuthError (rut_banner (mensaje (validarRUT (usuario data)))) started),
   opening ++
   [ EvAction (Log warn "LoginForm" "RUT inválido"
                   (Obj [("rut", usuario data);
                         ("mensaje", mensaje (validarRUT (usuario data)))]));
     EvAction (SetAuthError (rut_banner (mensaje (validarRUT (usuario data)))));
     EvAction (SetLoading false) ],
   Finished (Resolved tt)).
Proof.
  intros Hrut. unfold onSubmit. cbn. rewrite Hrut. reflexivity.
Qed.

(** The RUT is accepted: the handler suspends at [await login(...)]. *)
Lemma exec_onSubmit_accepted :
  valido (validarRUT (usuario data)) = true ->
  exists k,
    exec validarRUT (onSubmit data) s =
    (started,
     opening ++
     [ EvAction (Log debug "LoginForm" "Llamando función login del store" NoPayload);
       EvLogin (usuario data) (clave data) ],
     Suspended (usuario data) (clave data) k) /\
    forall o, k o = after_login o.
Proof.
  intros Hrut. unfold onSubmit. cbn. rewrite Hrut. cbn.
  eexists. split; [reflexivity|].
  intros [[|]|e]; reflexivity.
Qed.

End OnSubmitPaths.

(* ================================================================== *)
(** ** Running to the end and running to the await agree *)
(* ================================================================== *)

Section RunExec.

Variable validarRUT : string -> RutResult.
Variable login : string -> string -> Settled bool.

Lemma run_finished {A : Type} (p : Prog A) :
  forall s s' tr r,
    exec validarRUT p s = (s', tr, Finished r) ->
    run validarRUT login p s = (s', tr, r).
Proof.
  induction p as [a | e | a k IH | rut k IH | u c k IH]; intros s s' tr r; cbn.
  - intros [= <- <- <-]. reflexivity.
  - intros [= <- <- <-]. reflexivity.
  - destruct (exec validarRUT k (apply_action a s)) as [[s1 tr1] o1] eqn:E.
    intros [= <- <- ->]. now rewrite (IH _ _ _ _ E).
  - destruct (exec validarRUT (k (validarRUT rut)) s) as [[s1 tr1] o1] eqn:E.
    intros [= <- <- ->]. now rewrite (IH _ _ _ _ _ E).
  - discriminate.
Qed.

Lemma run_suspended {A : Type} (p : Prog A) :
  forall s s' tr u c k,
    exec validarRUT p s = (s', tr, Suspended u c k) ->
    run validarRUT login p s =
    (final_store (run validarRUT login (k (login u c)) s'),
     tr ++ trace (run validarRUT login (k (login u c)) s'),
     completion (run validarRUT login (k (login u c)) s')).
Proof.
  induction p as [a | e | a p IH | rut p IH | u0 c0 k0 IH]; intros s s' tr u c k; cbn.
  - discriminate.
  - discriminate.
  - destruct (exec validarRUT p (apply_action a s)) as [[s1 tr1] o1] eqn:E.
    intros [= <- <- ->]. now rewrite (IH _ _ _ _ _ _ E).
  - destruct (exec validarRUT (p (validarRUT rut)) s) as [[s1 tr1] o1] eqn:E.
    intros [= <- <- ->]. now rewrite (IH _ _ _ _ _ _ _ E).
  - intros [= <- <- <- <- <-].
    destruct (run validarRUT login (k0 (login u0 c0)) s) as [[s1 tr1] r1].
    reflexivity.
Qed.

(** The rest of the handler, from any store. *)
Lemma run_after_login (o : Settled bool) (s : Store) :
  run validarRUT login (after_login o) s =
  match o with
  | Resolved true =>
      (setLoading false s,
       [ EvAction (Log info "LoginForm" "Login exitoso" NoPayload);
         EvAction (SetLoading false) ],
       Resolved tt)
  | Resolved false =>
      (setLoading false (setAuthError credentials_banner s),
       [ EvAction (Log warn "LoginForm" "Login fallido - credenciales incorrectas"
                       NoPayload);
         EvAction (SetAuthError credentials_banner);
         EvAction (SetLoading false) ],
       Resolved tt)
  | Rejected e =>
      (setLoading false (setAuthError generic_banner s),
       [ EvAction (Log error "LoginForm" "Error durante el login" (Thrown e));
         EvAction (SetAuthError generic_banner);
         EvAction (SetLoading false) ],
       Resolved tt)
  end.
Proof. destruct o as [[|]|e]; reflexivity. Qed.

(** The whole handler when the RUT is rejected. *)
Lemma run_onSubmit_rejected (data : LoginFormData) (s : Store) :
  valido (validarRUT (usuario data)) = false ->
  run validarRUT login (onSubmit data) s =
  (final_store (exec validarRUT (onSubmit data) s),
   trace (exec validarRUT (onSubmit data) s),
   Resolved tt).
Proof.
  intros Hrut. rewrite (exec_onSubmit_rejected validarRUT data s Hrut).
  apply run_finished, exec_onSubmit_rejected, Hrut.
Qed.

(** The whole handler when the RUT is accepted. *)
Lemma run_onSubmit_accepted (data : LoginFormData) (s : Store) :
  valido (validarRUT (usuario data)) = true ->
  let rest := run validarRUT login
                  (after_login (login (usuario data) (clave data)))
                  (final_store (exec validarRUT (onSubmit data) s)) in
  run validarRUT login (onSubmit data) s =
  (final_store rest,
   trace (exec validarRUT (onSubmit data) s) ++ trace rest,
   completion rest).
Proof.
  intros Hrut.
  destruct (exec_onSubmit_accepted validarRUT data s Hrut) as (k & E & Hk).
  cbv zeta. rewrite (run_suspended _ _ _ _ _ _ _ E), Hk, E. reflexivity.
Qed.

End RunExec.

(* ================================================================== *)
(** ** The two validation layers *)
(* ================================================================== *)

Section HandleSubmit.

Variable validarRUT : string -> RutResult.
Variable login : string -> string -> Settled bool.
Variable data : LoginFormData.
Variable s : Store.

Let verdict : FieldErrors := zodResolver loginSchema data.
Let published : Store :=
  apply_action (SetFieldErrors (usuario_error verdict) (clave_error verdict)) s.

Lemma run_handleSubmit_blocked :
  has_errors (zodResolver loginSchema data) = true ->
  run validarRUT login (handleSubmit onSubmit data) s =
  (published,
   [EvAction (SetFieldErrors (usuario_error verdict) (clave_error verdict))],
   Resolved tt).
Proof.
  intros Herr. unfold handleSubmit. cbv zeta. fold verdict in Herr |- *.
  rewrite Herr. reflexivity.
Qed.

Lemma exec_handleSubmit_blocked :
  has_errors (zodResolver loginSchema data) = true ->
  exec validarRUT (handleSubmit onSubmit data) s =
  (published,
   [EvAction (SetFieldErrors (usuario_error verdict) (clave_error verdict))],
   Finished (Resolved tt)).
Proof.
  intros Herr. unfold handleSubmit. cbv zeta. fold verdict in Herr |- *.
  rewrite Herr. reflexivity.
Qed.

Lemma run_handleSubmit_passed :
  has_errors (zodResolver loginSchema data) = false ->
  run validarRUT login (handleSubmit onSubmit data) s =
  (final_store (run validarRUT login (onSubmit data) published),
   EvAction (SetFieldErrors None None)
     :: trace (run validarRUT login (onSubmit data) published),
   completion (run validarRUT login (onSubmit data) published)).
Proof.
  intros Herr.
  assert (Hnone : usuario_error verdict = None /\ clave_error verdict = None).
  { unfold has_errors in Herr. fold verdict in Herr.
    destruct (usuario_error verdict), (clave_error verdict);
      try discriminate; auto. }
  destruct Hnone as [Hu Hc].
  unfold handleSubmit. cbv zeta. fold verdict in Herr |- *. rewrite Herr.
  change (run validarRUT login
            (bind (perform (SetFieldErrors (usuario_error verdict)
                                           (clave_error verdict)))
                  (fun _ => onSubmit data)) s)
    with (let '(s', tr, r) := run validarRUT login (onSubmit data) published in
          (s', EvAction (SetFieldErrors (usuario_error verdict)
                                        (clave_error verdict)) :: tr, r)).
  rewrite Hu, Hc.
  destruct (run validarRUT login (onSubmit data) published) as [[s1 tr1] r1].
  reflexivity.
Qed.

Lemma exec_handleSubmit_passed :
  has_errors (zodResolver loginSchema data) = false ->
  exec validarRUT (handleSubmit onSubmit data) s =
  (final_store (exec validarRUT (onSubmit data) published),
   EvAction (SetFieldErrors None None)
     :: trace (exec validarRUT (onSubmit data) published),
   completion (exec validarRUT (onSubmit data) published)).
Proof.
  intros Herr.
  assert (Hnone : usuario_error verdict = None /\ clave_error verdict = None).
  { unfold has_errors in Herr. fold verdict in Herr.
    destruct (usuario_error verdict), (clave_error verdict);
      try discriminate; auto. }
  destruct Hnone as [Hu Hc].
  unfold handleSubmit. cbv zeta. fold verdict in Herr |- *. rewrite Herr.
  change (exec validarRUT
            (bind (perform (SetFieldErrors (usuario_error verdict)
                                           (clave_error verdict)))
                  (fun _ => onSubmit data)) s)
    with (let '(s', tr, r) := exec validarRUT (onSubmit data) published in
          (s', EvAction (SetFieldErrors (usuario_error verdict)
                                        (clave_error verdict)) :: tr, r)).
  rewrite Hu, Hc.
  destruct (exec validarRUT (onSubmit data) published) as [[s1 tr1] r1].
  reflexivity.
Qed.

End HandleSubmit.

(** An empty field always fails the schema. *)
Lemma empty_field_has_errors (data : LoginFormData) :
  usuario data = "" \/ clave data = "" ->
  has_errors (zodResolver loginSchema data) = true.
Proof.
  destruct data as [u c]. cbn. intros [-> | ->]; cbn.
  - reflexivity.
  - unfold has_errors. cbn. now destruct (z_issue _ u).
Qed.

(* ================================================================== *)
(** ** Properties of the login form *)
(* ================================================================== *)

(** C1. Whenever [validarRUT] answers [valido = false] for the submitted
    username, the handler sets the banner to the RUT message, ends
    without ever suspending at the authentication call, and the trace
    holds no call to [login], whether the handler is run alone or behind
    [handleSubmit]. *)
Theorem invalid_rut_never_reaches_login :
  forall (validarRUT : string -> RutResult)
         (login : string -> string -> Settled bool)
         (data : LoginFormData) (s : Store),
    valido (validarRUT (usuario data)) = false ->
    let r := run validarRUT login (onSubmit data) s in
    alert (render (final_store r)) =
      Some ("RUT inválido: " ++ mensaje (validarRUT (usuario data)))%string /\
    login_calls (trace r) = [] /\
    completion r = Resolved tt /\
    completion (exec validarRUT (onSubmit data) s) = Finished (Resolved tt) /\
    login_calls (trace (run validarRUT login (handleSubmit onSubmit data) s)) = [].
Proof.
  intros v l data s Hrut r.
  assert (Hr : forall s0, login_calls (trace (run v l (onSubmit data) s0)) = []).
  { intros s0. rewrite (run_onSubmit_rejected v l data s0 Hrut).
    rewrite (exec_onSubmit_rejected v data s0 Hrut). reflexivity. }
  subst r. repeat split.
  - rewrite (run_onSubmit_rejected v l data s Hrut).
    rewrite (exec_onSubmit_rejected v data s Hrut). reflexivity.
  - apply Hr.
  - now rewrite (run_onSubmit_rejected v l data s Hrut).
  - now rewrite (exec_onSubmit_rejected v data s Hrut).
  - destruct (has_errors (zodResolver loginSchema data)) eqn:Herr.
    + now rewrite (run_handleSubmit_blocked v l data s Herr).
    + rewrite (run_handleSubmit_passed v l data s Herr). cbn. apply Hr.
Qed.

Lemma invalid_rut_never_reaches_login_witness :
  valido (validarRUT_formato "no es un rut") = false /\
  login_calls
    (trace (run validarRUT_formato (fun _ _ => Resolved true)
                (onSubmit {| usuario := "no es un rut"; clave := "user123" |})
                initialStore)) = [].
Proof.
  split; [reflexivity|].
  apply (invalid_rut_never_reaches_login
           validarRUT_formato (fun _ _ => Resolved true)
           {| usuario := "no es un rut"; clave := "user123" |} initialStore).
  reflexivity.
Defined.

(** C2. Whenever the username or the password is the empty string, the
    schema blocks the submission: the only thing that happens is the
    publication of the field errors ('Usuario requerido' for an empty
    username, 'Clave requerida' for an empty password), the hooks are left
    alone, and [login] is not called. *)
Theorem empty_field_blocks_submission :
  forall (validarRUT : string -> RutResult)
         (login : string -> string -> Settled bool)
         (data : LoginFormData) (s : Store),
    usuario data = "" \/ clave data = "" ->
    let r := run validarRUT login (handleSubmit onSubmit data) s in
    login_calls (trace r) = [] /\
    validarRUT_calls (trace r) = [] /\
    loading_writes (trace r) = [] /\
    hooks (final_store r) = hooks s /\
    (usuario data = "" ->
     usuario_input_error (render (final_store r)) = Some "Usuario requerido") /\
    (clave data = "" ->
     clave_input_error (render (final_store r)) = Some "Clave requerida") /\
    completion (exec validarRUT (handleSubmit onSubmit data) s)
      = Finished (Resolved tt).
Proof.
  intros v l data s Hempty r.
  pose proof (empty_field_has_errors data Hempty) as Herr.
  subst r. rewrite (run_handleSubmit_blocked v l data s Herr).
  rewrite (exec_handleSubmit_blocked v data s Herr).
  repeat split; try reflexivity.
  - destruct data as [u c]. cbn. intros ->. reflexivity.
  - destruct data as [u c]. cbn. intros ->. reflexivity.
Qed.

Lemma empty_field_blocks_submission_witness :
  login_calls
    (trace (run validarRUT_formato (fun _ _ => Resolved true)
                (handleSubmit onSubmit {| usuario := "12345678-5"; clave := "" |})
                initialStore)) = [].
Proof.
  apply (empty_field_blocks_submission
           validarRUT_formato (fun _ _ => Resolved true)
           {| usuario := "12345678-5"; clave := "" |} initialStore).
  right. reflexivity.
Defined.

(** C3. Whenever [validarRUT] answers [valido = true] for the submitted
    username, whatever the password, the handler calls [login] exactly
    once, with the two field values as they were submitted: it suspends
    at that call, and what runs after the call settles makes no further
    call. *)
Theorem valid_rut_calls_login_once :
  forall (validarRUT : string -> RutResult)
         (login : string -> string -> Settled bool)
         (data : LoginFormData) (s : Store),
    valido (validarRUT (usuario data)) = true ->
    login_calls (trace (run validarRUT login (onSubmit data) s))
      = [(usuario data, clave data)] /\
    exists k,
      completion (exec validarRUT (onSubmit data) s)
        = Suspended (usuario data) (clave data) k /\
      login_calls (trace (exec validarRUT (onSubmit data) s))
        = [(usuario data, clave data)] /\
      forall (o : Settled bool) (s' : Store),
        login_calls (trace (exec validarRUT (k o) s')) = [] /\
        completion (exec validarRUT (k o) s') = Finished (Resolved tt).
Proof.
  intros v l data s Hrut.
  destruct (exec_onSubmit_accepted v data s Hrut) as (k & E & Hk).
  split.
  - rewrite (run_onSubmit_accepted v l data s Hrut), E.
    rewrite run_after_login.
    destruct (l (usuario data) (clave data)) as [[|]|e]; reflexivity.
  - exists k. rewrite E. repeat split.
    + rewrite Hk. destruct o as [[|]|e]; reflexivity.
    + rewrite Hk. destruct o as [[|]|e]; reflexivity.
Qed.

Lemma valid_rut_calls_login_once_witness :
  login_calls
    (trace (run validarRUT_formato (fun _ _ => Resolved false)
                (onSubmit {| usuario := "12345678-5"; clave := "" |})
                initialStore)) = [("12345678-5", "")].
Proof.
  apply (valid_rut_calls_login_once
           validarRUT_formato (fun _ _ => Resolved false)
           {| usuario := "12345678-5"; clave := "" |} initialStore).
  reflexivity.
Defined.

(** C4. When the handler reaches the authentication call: if [login]
    resolves to true no banner is set (none is shown afterwards); if it
    resolves to false the banner is 'Usuario o clave incorrectos'; if it
    throws, the error is caught (the handler itself completes normally)
    and the banner is 'Error al iniciar sesión'. *)
Theorem login_outcome_decides_banner :
  forall (validarRUT : string -> RutResult)
         (login : string -> string -> Settled bool)
         (data : LoginFormData) (s : Store),
    valido (validarRUT (usuario data)) = true ->
    let r := run validarRUT login (onSubmit data) s in
    completion r = Resolved tt /\
    match login (usuario data) (clave data) with
    | Resolved true =>
        authError_writes (trace r) = [""] /\
        alert (render (final_store r)) = None
    | Resolved false =>
        authError_writes (trace r) = [""; "Usuario o clave incorrectos"] /\
        alert (render (final_store r)) = Some "Usuario o clave incorrectos"
    | Rejected _ =>
        authError_writes (trace r) = [""; "Error al iniciar sesión"] /\
        alert (render (final_store r)) = Some "Error al iniciar sesión"
    end.
Proof.
  intros v l data s Hrut r. subst r.
  destruct (exec_onSubmit_accepted v data s Hrut) as (k & E & Hk).
  rewrite (run_onSubmit_accepted v l data s Hrut), E, run_after_login.
  destruct (l (usuario data) (clave data)) as [[|]|e]; repeat split.
Qed.

Lemma login_outcome_decides_banner_witness :
  alert (render (final_store
    (run validarRUT_formato (fun _ _ => Rejected "network down")
         (onSubmit {| usuario := "12345678-5"; clave := "user123" |})
         initialStore))) = Some "Error al iniciar sesión".
Proof.
  apply (login_outcome_decides_banner
           validarRUT_formato (fun _ _ => Rejected "network down")
           {| usuario := "12345678-5"; clave := "user123" |} initialStore).
  reflexivity.
Defined.

(** C10. Every run of the handler starts by logging the attempt, setting
    [loading] to true and resetting the banner to the empty string, and
    only then calls [validarRUT] (once): at the moment of that call,
    whatever the store held before, the [loading] flag reads true (and
    is what the submit control is given), the banner reads the empty
    string and no alert is rendered, and nothing else of the store has
    changed. So, whatever banner the store held before, none is shown
    after a submission whose [login] resolves to true; and the banner
    after a rejected RUT is 'RUT inválido: ' followed by the validator's
    message. *)
Theorem submit_resets_banner_before_validation :
  forall (validarRUT : string -> RutResult)
         (login : string -> string -> Settled bool)
         (data : LoginFormData) (s : Store),
    let r := run validarRUT login (onSubmit data) s in
    (exists rest,
        trace r =
          [ EvAction (Log info "LoginForm" "Intento de login iniciado"
                          (Obj [("usuario", usuario data)]));
            EvAction (SetLoading true);
            EvAction (SetAuthError "");
            EvValidarRUT (usuario data) ] ++ rest /\
        validarRUT_calls rest = []) /\
    (exists s0 : Store,
        store_at_validation (onSubmit data) s = Some s0 /\
        loading (hooks s0) = true /\
        button_loading (submit (render s0)) = true /\
        authError (hooks s0) = "" /\
        alert (render s0) = None /\
        showPassword (hooks s0) = showPassword (hooks s) /\
        showForgotTooltip (hooks s0) = showForgotTooltip (hooks s) /\
        errors s0 = errors s) /\
    (valido (validarRUT (usuario data)) = true ->
     login (usuario data) (clave data) = Resolved true ->
     authError (hooks (final_store r)) = "" /\
     alert (render (final_store r)) = None) /\
    (valido (validarRUT (usuario data)) = false ->
     authError (hooks (final_store r)) =
       ("RUT inválido: " ++ mensaje (validarRUT (usuario data)))%string /\
     alert (render (final_store r)) =
       Some ("RUT inválido: " ++ mensaje (validarRUT (usuario data)))%string).
Proof.
  intros v l data s r. subst r.
  assert (Hat : exists s0 : Store,
             store_at_validation (onSubmit data) s = Some s0 /\
             loading (hooks s0) = true /\
             button_loading (submit (render s0)) = true /\
             authError (hooks s0) = "" /\
             alert (render s0) = None /\
             showPassword (hooks s0) = showPassword (hooks s) /\
             showForgotTooltip (hooks s0) = showForgotTooltip (hooks s) /\
             errors s0 = errors s).
  { exists (setAuthError "" (setLoading true s)). repeat split. }
  destruct (valido (v (usuario data))) eqn:Hrut.
  - destruct (exec_onSubmit_accepted v data s Hrut) as (k & E & Hk).
    rewrite (run_onSubmit_accepted v l data s Hrut), E, run_after_login.
    split; [|split; [exact Hat|split]].
    + eexists. split; [reflexivity|].
      destruct (l (usuario data) (clave data)) as [[|]|e]; reflexivity.
    + intros _ ->. split; reflexivity.
    + discriminate.
  - rewrite (run_onSubmit_rejected v l data s Hrut).
    rewrite (exec_onSubmit_rejected v data s Hrut).
    split; [|split; [exact Hat|split]].
    + eexists. split; reflexivity.
    + discriminate.
    + intros _. split; reflexivity.
Qed.

Lemma submit_resets_banner_before_validation_witness :
  (let stale := setAuthError "Usuario o clave incorrectos" initialStore in
   loading (hooks stale) = false /\
   alert (render stale) = Some "Usuario o clave incorrectos" /\
   (exists s0,
       store_at_validation
         (onSubmit {| usuario := "12345678-5"; clave := "user123" |}) stale
         = Some s0 /\
       loading (hooks s0) = true /\ alert (render s0) = None) /\
   alert (render (final_store
     (run validarRUT_formato (fun _ _ => Resolved true)
          (onSubmit {| usuario := "12345678-5"; clave := "user123" |})
          stale))) = None) /\
  alert (render (final_store
    (run validarRUT_formato (fun _ _ => Resolved true)
         (onSubmit {| usuario := "12345678"; clave := "user123" |})
         initialStore))) = Some "RUT inválido: formato NNNNNNNN-C esperado".
Proof.
  pose proof (submit_resets_banner_before_validation
                validarRUT_formato (fun _ _ => Resolved true)
                {| usuario := "12345678-5"; clave := "user123" |}
                (setAuthError "Usuario o clave incorrectos" initialStore))
    as (_ & (s0 & Hat & Hload & _ & _ & Halert & _) & Hsuccess & _).
  pose proof (submit_resets_banner_before_validation
                validarRUT_formato (fun _ _ => Resolved true)
                {| usuario := "12345678"; clave := "user123" |} initialStore)
    as (_ & _ & _ & Hrejected).
  split; [split; [reflexivity | split; [reflexivity | split]]|].
  - exists s0. split; [exact Hat | split; [exact Hload | exact Halert]].
  - apply Hsuccess; reflexivity.
  - apply Hrejected. reflexivity.
Defined.

(* ================================================================== *)
(** ** The form between two turns of the event loop *)
(* ================================================================== *)

Section Reachable.

Variable validarRUT : string -> RutResult.

Lemma submitForm_invariant (f : Form) :
  pending f = None ->
  loading (hooks (store f)) = false ->
  form_invariant (submitForm validarRUT f).
Proof.
  intros Hidle Hload. unfold submitForm, form_invariant.
  destruct (has_errors (zodResolver loginSchema (values f))) eqn:Herr.
  - rewrite (exec_handleSubmit_blocked validarRUT (values f) (store f) Herr).
    cbn. exact Hload.
  - rewrite (exec_handleSubmit_passed validarRUT (values f) (store f) Herr).
    destruct (valido (validarRUT (usuario (values f)))) eqn:Hrut.
    + destruct (exec_onSubmit_accepted validarRUT (values f)
                  (apply_action (SetFieldErrors
                     (usuario_error (zodResolver loginSchema (values f)))
                     (clave_error (zodResolver loginSchema (values f))))
                     (store f)) Hrut) as (k & E & Hk).
      rewrite E. cbn. split; [reflexivity | exact Hk].
    + rewrite (exec_onSubmit_rejected validarRUT (values f) _ Hrut).
      reflexivity.
Qed.

Lemma settle_invariant (f : Form) (k : Settled bool -> Prog unit)
      (o : Settled bool) :
  (forall o', k o' = after_login o') ->
  pending (settle validarRUT k o f) = None /\
  loading (hooks (store (settle validarRUT k o f))) = false.
Proof.
  intros Hk. unfold settle. rewrite Hk.
  destruct o as [[|]|e]; split; reflexivity.
Qed.

Lemma step_invariant (f : Form) (i : Input) (f' : Form) :
  form_invariant f -> step validarRUT f i f' -> form_invariant f'.
Proof.
  intros Hinv Hstep.
  destruct Hstep as [f data | f | f b | f Henabled | f k o Hpending].
  - exact Hinv.
  - exact Hinv.
  - exact Hinv.
  - cbn in Henabled. unfold form_invariant in Hinv.
    destruct (pending f) as [k|] eqn:Hp.
    + destruct Hinv as [Hload _]. congruence.
    + now apply submitForm_invariant.
  - unfold form_invariant in Hinv. rewrite Hpending in Hinv.
    destruct Hinv as [_ Hk].
    destruct (settle_invariant f k o Hk) as [Hnone Hload].
    unfold form_invariant. now rewrite Hnone.
Qed.

Lemma reachable_invariant (f : Form) :
  reachable validarRUT f -> form_invariant f.
Proof.
  induction 1 as [| f i f' _ IH Hstep].
  - reflexivity.
  - exact (step_invariant f i f' IH Hstep).
Qed.

End Reachable.

(** C8. On every exit path of the handler [loading] ends up false. In
    every form reachable from the mounted one, as long as a handler is
    suspended at the authentication call, [loading] is true, the submit
    control is disabled and shows its loading affordance, and no
    submission can start; once the call settles, in whichever way, no
    handler is left suspended and [loading] is false. With no handler
    suspended, [loading] is false. *)
Theorem pending_login_disables_submit :
  forall (validarRUT : string -> RutResult),
    (forall (login : string -> string -> Settled bool)
            (data : LoginFormData) (s : Store),
        loading (hooks (final_store (run validarRUT login (onSubmit data) s)))
          = false) /\
    (forall f : Form,
        reachable validarRUT f ->
        match pending f with
        | Some k =>
            loading (hooks (store f)) = true /\
            disabled (Button (submit (render (store f)))) = true /\
            loading_affordance (Button (submit (render (store f)))) = true /\
            (forall f', ~ step validarRUT f click_submit f') /\
            (forall o : Settled bool,
                pending (settle validarRUT k o f) = None /\
                loading (hooks (store (settle validarRUT k o f))) = false)
        | None => loading (hooks (store f)) = false
        end).
Proof.
  intros v. split.
  - intros l data s.
    destruct (valido (v (usuario data))) eqn:Hrut.
    + destruct (exec_onSubmit_accepted v data s Hrut) as (k & E & Hk).
      rewrite (run_onSubmit_accepted v l data s Hrut), E, run_after_login.
      destruct (l (usuario data) (clave data)) as [[|]|e]; reflexivity.
    + rewrite (run_onSubmit_rejected v l data s Hrut).
      now rewrite (exec_onSubmit_rejected v data s Hrut).
  - intros f Hreach.
    pose proof (reachable_invariant v f Hreach) as Hinv.
    unfold form_invariant in Hinv.
    destruct (pending f) as [k|] eqn:Hp; [|exact Hinv].
    destruct Hinv as [Hload Hk].
    assert (Hdis : disabled (Button (submit (render (store f)))) = true)
      by exact Hload.
    repeat split.
    + exact Hload.
    + exact Hdis.
    + exact Hload.
    + intros f' Hstep. inversion Hstep; subst. congruence.
    + apply (settle_invariant v f k o Hk).
    + apply (settle_invariant v f k o Hk).
Qed.

Lemma pending_login_disables_submit_witness :
  let typed := with_values {| usuario := "12345678-5"; clave := "user123" |} mount in
  let f := submitForm validarRUT_formato typed in
  reachable validarRUT_formato f /\
  (exists k, pending f = Some k) /\
  forall f', ~ step validarRUT_formato f click_submit f'.
Proof.
  intros typed f.
  assert (Hreach : reachable validarRUT_formato f).
  { apply (reachable_step validarRUT_formato typed click_submit).
    - apply (reachable_step validarRUT_formato mount
               (change {| usuario := "12345678-5"; clave := "user123" |})).
      + apply reachable_mount.
      + apply step_change.
    - apply step_submit. reflexivity. }
  split; [exact Hreach|]. split; [eexists; reflexivity|].
  pose proof (proj2 (pending_login_disables_submit validarRUT_formato) f Hreach)
    as H.
  cbn in H. apply H.
Defined.

(** C5, as the code has it. An attempt goes idle, submitting, settled,
    in that order and once: [loading] is written true and then false, and
    [login] is called at most once. While the handler is suspended at the
    authentication call the submit control is disabled and shows the
    loading affordance; the inputs are not disabled, they take typing in
    every state. In the settled state after success (the RUT was accepted
    and [login] resolved to true) no banner is shown; after a failure
    exactly one banner is written and shown, it is one of the three
    messages, and behind [handleSubmit] no field message accompanies it.
    Neither starting nor settling an attempt touches the field values:
    the form is not cleared. *)
Theorem submission_attempt_is_linear :
  forall (validarRUT : string -> RutResult)
         (login : string -> string -> Settled bool)
         (data : LoginFormData) (s : Store),
    let r := run validarRUT login (onSubmit data) s in
    let e := exec validarRUT (onSubmit data) s in
    let r' := run validarRUT login (handleSubmit onSubmit data) s in
    phases (trace r) = [idle; submitting; settled] /\
    (length (login_calls (trace r)) <= 1)%nat /\
    completion r = Resolved tt /\
    loading (hooks (final_store r)) = false /\
    (valido (validarRUT (usuario data)) = true ->
     phases (trace e) = [idle; submitting] /\
     disabled (Button (submit (render (final_store e)))) = true /\
     loading_affordance (Button (submit (render (final_store e)))) = true) /\
    (valido (validarRUT (usuario data)) = true ->
     login (usuario data) (clave data) = Resolved true ->
     authError_writes (trace r) = [""] /\
     alert (render (final_store r)) = None) /\
    (valido (validarRUT (usuario data)) = false \/
     login (usuario data) (clave data) <> Resolved true ->
     exists m,
       authError_writes (trace r) = [""; m] /\
       alert (render (final_store r)) = Some m /\
       (m = ("RUT inválido: " ++ mensaje (validarRUT (usuario data)))%string \/
        m = "Usuario o clave incorrectos" \/
        m = "Error al iniciar sesión")) /\
    (has_errors (zodResolver loginSchema data) = false ->
     alert (render (final_store r')) = alert (render (final_store r)) /\
     usuario_input_error (render (final_store r')) = None /\
     clave_input_error (render (final_store r')) = None) /\
    (forall f : Form,
        values (submitForm validarRUT f) = values f /\
        (forall k o, values (settle validarRUT k o f) = values f) /\
        (forall typed, step validarRUT f (change typed) (with_values typed f))).
Proof.
  intros v l data s r e r'. subst r e r'.
  assert (Hvalues : forall f : Form,
             values (submitForm v f) = values f /\
             (forall k o, values (settle v k o f) = values f) /\
             (forall typed, step v f (change typed) (with_values typed f))).
  { intros f. split; [|split; [intros k o | intros typed; constructor]];
      unfold submitForm, settle, resume.
    - now destruct (exec v (handleSubmit onSubmit (values f)) (store f))
        as [[s1 tr1] o1].
    - now destruct (exec v (k o) (store f)) as [[s1 tr1] o1]. }
  assert (Hbehind : has_errors (zodResolver loginSchema data) = false ->
            alert (render (final_store
                     (run v l (handleSubmit onSubmit data) s))) =
            alert (render (final_store (run v l (onSubmit data) s))) /\
            usuario_input_error (render (final_store
                     (run v l (handleSubmit onSubmit data) s))) = None /\
            clave_input_error (render (final_store
                     (run v l (handleSubmit onSubmit data) s))) = None).
  { intros Herr. rewrite (run_handleSubmit_passed v l data s Herr).
    unfold has_errors in Herr.
    destruct (usuario_error (zodResolver loginSchema data)) eqn:Hu;
      [discriminate|].
    destruct (clave_error (zodResolver loginSchema data)) eqn:Hc;
      [discriminate|].
    destruct (valido (v (usuario data))) eqn:Hrut.
    - rewrite !(run_onSubmit_accepted v l data _ Hrut).
      destruct (exec_onSubmit_accepted v data s Hrut) as (k1 & E1 & _).
      destruct (exec_onSubmit_accepted v data
                  (apply_action (SetFieldErrors None None) s) Hrut)
        as (k2 & E2 & _).
      rewrite E1, E2, !run_after_login.
      destruct (l (usuario data) (clave data)) as [[|]|err];
        repeat split.
    - rewrite !(run_onSubmit_rejected v l data _ Hrut).
      rewrite !(exec_onSubmit_rejected v data _ Hrut). repeat split. }
  destruct (valido (v (usuario data))) eqn:Hrut.
  - destruct (exec_onSubmit_accepted v data s Hrut) as (k & E & Hk).
    rewrite (run_onSubmit_accepted v l data s Hrut), E, run_after_login.
    rewrite (run_onSubmit_accepted v l data s Hrut), E, run_after_login
      in Hbehind.
    destruct (l (usuario data) (clave data)) as [[|]|err] eqn:Hl;
      (repeat split; try exact Hvalues; try apply Hvalues;
       try apply Hbehind; try assumption;
       try (cbn; lia); try discriminate).
    + intros [Hno | Hno]; [discriminate | now destruct Hno].
    + intros _. exists "Usuario o clave incorrectos". repeat split. auto.
    + intros _. exists "Error al iniciar sesión". repeat split. auto.
  - rewrite (run_onSubmit_rejected v l data s Hrut).
    rewrite (exec_onSubmit_rejected v data s Hrut).
    rewrite (run_onSubmit_rejected v l data s Hrut) in Hbehind.
    rewrite (exec_onSubmit_rejected v data s Hrut) in Hbehind.
    repeat split; try exact Hvalues; try apply Hvalues;
      try apply Hbehind; try assumption;
      try (cbn; lia); try discriminate.
    intros _. eexists. repeat split. left. reflexivity.
Qed.

Lemma submission_attempt_is_linear_witness :
  let r := run validarRUT_formato (fun _ _ => Resolved false)
               (onSubmit {| usuario := "12345678-5"; clave := "user123" |})
               initialStore in
  phases (trace r) = [idle; submitting; settled] /\
  exists m, authError_writes (trace r) = [""; m] /\
            alert (render (final_store r)) = Some m.
Proof.
  intros r.
  pose proof (submission_attempt_is_linear
                validarRUT_formato (fun _ _ => Resolved false)
                {| usuario := "12345678-5"; clave := "user123" |} initialStore)
    as (Hphases & _ & _ & _ & _ & _ & Hfailure & _).
  split; [exact Hphases|].
  destruct Hfailure as (m & Hw & Ha & _).
  - right. discriminate.
  - exists m. split; assumption.
Defined.

(** C5, as the spec words it, fails. A well-formed RUT is submitted.
    While the handler waits for [login] the inputs are not disabled:
    the password field takes new text. [login] resolves to true: the
    attempt settles with no banner and the loading flag down, and the two
    fields still hold what was typed. *)
Lemma form_not_cleared_after_success :
  let typed := with_values {| usuario := "12345678-5"; clave := "user123" |} mount in
  let submitted := submitForm validarRUT_formato typed in
  exists k,
    pending submitted = Some k /\
    step validarRUT_formato submitted
         (change {| usuario := "12345678-5"; clave := "user1234" |})
         (with_values {| usuario := "12345678-5"; clave := "user1234" |} submitted) /\
    let done := settle validarRUT_formato k (Resolved true) submitted in
    pending done = None /\
    loading (hooks (store done)) = false /\
    alert (render (store done)) = None /\
    login_calls (history done) = [("12345678-5", "user123")] /\
    values done = {| usuario := "12345678-5"; clave := "user123" |} /\
    ~ form_cleared done.
Proof.
  cbv zeta. eexists. split; [reflexivity|]. split; [constructor|].
  repeat split. intros Habs. discriminate Habs.
Qed.

(* ================================================================== *)
(** ** The simulated seat grids *)
(* ================================================================== *)

Import SeatIconDemo.

Section ArrayFrom.

Context {A : Type}.
Variable n : nat.
Variable f : Z -> A.

Lemma Array_from_length : length (Array_from n f) = n.
Proof. unfold Array_from. now rewrite length_map, length_seq. Qed.

Lemma Array_from_nth_error (i : nat) :
  (i < n)%nat -> nth_error (Array_from n f) i = Some (f (Z.of_nat i)).
Proof.
  intros Hi. unfold Array_from.
  rewrite nth_error_map, nth_error_seq.
  destruct (Nat.ltb_spec i n) as [_|Hge]; [reflexivity | lia].
Qed.

Lemma In_Array_from (x : A) :
  In x (Array_from n f) <-> exists i : nat, (i < n)%nat /\ x = f (Z.of_nat i).
Proof.
  unfold Array_from. rewrite in_map_iff. split.
  - intros (i & <- & Hin). apply in_seq in Hin. exists i. split; [lia | reflexivity].
  - intros (i & Hi & ->). exists i. split; [reflexivity | apply in_seq; lia].
Qed.

End ArrayFrom.

Section SimulatedGrid.

Local Open Scope Z_scope.

Variables rows cols : nat.
Variable threshold : Z.
Variable sz : SeatSize.

Lemma simulated_grid_rows :
  length (simulated_grid rows cols threshold sz) = rows /\
  Forall (fun r => length r = cols) (simulated_grid rows cols threshold sz).
Proof.
  unfold simulated_grid. split.
  - apply Array_from_length.
  - apply Forall_forall. intros r Hr.
    apply In_Array_from in Hr. destruct Hr as (i & _ & ->).
    apply Array_from_length.
Qed.

Lemma simulated_grid_cell (row seat : nat) :
  (row < rows)%nat -> (seat < cols)%nat ->
  cell (simulated_grid rows cols threshold sz) row seat =
  Some (simulated_seat (Z.of_nat cols) threshold sz (Z.of_nat row) (Z.of_nat seat)).
Proof.
  intros Hrow Hseat. unfold cell, simulated_grid.
  rewrite (Array_from_nth_error _ _ row Hrow).
  apply (Array_from_nth_error _ _ seat Hseat).
Qed.

Lemma simulated_grid_In (p : SeatIconProps) :
  In p (concat (simulated_grid rows cols threshold sz)) ->
  exists row seat : nat,
    (row < rows)%nat /\ (seat < cols)%nat /\
    p = simulated_seat (Z.of_nat cols) threshold sz (Z.of_nat row) (Z.of_nat seat).
Proof.
  intros Hin. apply in_concat in Hin. destruct Hin as (r & Hr & Hp).
  unfold simulated_grid in Hr. apply In_Array_from in Hr.
  destruct Hr as (row & Hrow & ->).
  apply In_Array_from in Hp. destruct Hp as (seat & Hseat & ->).
  now exists row, seat.
Qed.

(** Every seat of a grid: numbered by its place, taken up to the
    threshold, free and selectable above it. *)
Lemma simulated_grid_seat (p : SeatIconProps) (n : Z) :
  In p (concat (simulated_grid rows cols threshold sz)) ->
  number p = Some n ->
  1 <= n <= Z.of_nat rows * Z.of_nat cols /\
  (n <= threshold -> shown_occupied p) /\
  (threshold < n -> shown_available n p).
Proof.
  intros Hin Hn.
  destruct (simulated_grid_In p Hin) as (row & seat & Hrow & Hseat & ->).
  cbn in Hn. injection Hn as <-.
  split; [nia|]. unfold shown_occupied, shown_available, simulated_seat. cbn.
  destruct (Z.leb_spec (Z.of_nat row * Z.of_nat cols + Z.of_nat seat + 1) threshold)
    as [Hle|Hgt]; cbn; split; intros Hcmp; try lia.
  - split; reflexivity.
  - split; [reflexivity|]. eexists. split; [reflexivity|]. intros st. reflexivity.
Qed.

End SimulatedGrid.

(** C6. The classroom grid has 5 rows of 6 seats; the seat at a row and
    a position has number row*6 + seat + 1, so the numbers in reading
    order are 1 to 30; every seat numbered 1 to 18 has status 'occupied'
    and no click handler, every seat numbered 19 to 30 has status
    'available' and a click handler that records its number as the
    selected seat. *)
Theorem aulaPresencial_seats :
  (length aulaPresencial = 5%nat /\
   Forall (fun r => length r = 6%nat) aulaPresencial) /\
  numbers aulaPresencial = one_to 30 /\
  (forall row seat : nat,
      (row < 5)%nat -> (seat < 6)%nat ->
      exists p, cell aulaPresencial row seat = Some p /\
                number p = Some (Z.of_nat row * 6 + Z.of_nat seat + 1)%Z) /\
  (forall (p : SeatIconProps) (n : Z),
      In p (concat aulaPresencial) -> number p = Some n ->
      (1 <= n <= 30)%Z /\
      ((1 <= n <= 18)%Z -> shown_occupied p) /\
      ((19 <= n <= 30)%Z -> shown_available n p)).
Proof.
  change aulaPresencial with (simulated_grid 5 6 18 md).
  split; [apply simulated_grid_rows|]. split; [reflexivity|]. split.
  - intros row seat Hrow Hseat. eexists. split.
    + apply simulated_grid_cell; assumption.
    + reflexivity.
  - intros p n Hin Hn.
    destruct (simulated_grid_seat 5 6 18 md p n Hin Hn) as (Hrange & Hocc & Hav).
    split; [lia|]. split; intros Hcmp; [apply Hocc | apply Hav]; lia.
Qed.

Lemma aulaPresencial_seats_witness :
  (exists p, cell aulaPresencial 2 5 = Some p /\ number p = Some 18%Z /\
             shown_occupied p) /\
  (exists p, cell aulaPresencial 3 0 = Some p /\ number p = Some 19%Z /\
             shown_available 19 p).
Proof.
  assert (Hin : forall row seat p,
             cell aulaPresencial row seat = Some p -> In p (concat aulaPresencial)).
  { intros row seat p Hp. unfold cell in Hp.
    destruct (nth_error aulaPresencial row) as [r|] eqn:Hr; [|discriminate].
    apply in_concat. exists r. split; eapply nth_error_In; eassumption. }
  destruct aulaPresencial_seats as (_ & _ & Hcell & Hseat).
  split.
  - destruct (Hcell 2%nat 5%nat) as (p & Hp & Hn); [lia | lia |].
    exists p. split; [exact Hp|]. split; [exact Hn|].
    apply (Hseat p 18%Z); [exact (Hin _ _ _ Hp) | exact Hn | lia].
  - destruct (Hcell 3%nat 0%nat) as (p & Hp & Hn); [lia | lia |].
    exists p. split; [exact Hp|]. split; [exact Hn|].
    apply (Hseat p 19%Z); [exact (Hin _ _ _ Hp) | exact Hn | lia].
Defined.

(** C9. The online-course grid has 10 rows of 20 seats; the seat at a
    row and a position has number row*20 + seat + 1, so the numbers in
    reading order are 1 to 200; every seat numbered 1 to 150 has status
    'occupied' and no click handler, every seat numbered 151 to 200 has
    status 'available' and a click handler that records its number as the
    selected seat. *)
Theorem cursoOnline_seats :
  (length cursoOnline = 10%nat /\
   Forall (fun r => length r = 20%nat) cursoOnline) /\
  numbers cursoOnline = one_to 200 /\
  (forall row seat : nat,
      (row < 10)%nat -> (seat < 20)%nat ->
      exists p, cell cursoOnline row seat = Some p /\
                number p = Some (Z.of_nat row * 20 + Z.of_nat seat + 1)%Z) /\
  (forall (p : SeatIconProps) (n : Z),
      In p (concat cursoOnline) -> number p = Some n ->
      (1 <= n <= 200)%Z /\
      ((1 <= n <= 150)%Z -> shown_occupied p) /\
      ((151 <= n <= 200)%Z -> shown_available n p)).
Proof.
  change cursoOnline with (simulated_grid 10 20 150 sm).
  split; [apply simulated_grid_rows|]. split; [vm_compute; reflexivity|]. split.
  - intros row seat Hrow Hseat. eexists. split.
    + apply simulated_grid_cell; assumption.
    + reflexivity.
  - intros p n Hin Hn.
    destruct (simulated_grid_seat 10 20 150 sm p n Hin Hn) as (Hrange & Hocc & Hav).
    split; [lia|]. split; intros Hcmp; [apply Hocc | apply Hav]; lia.
Qed.

Lemma cursoOnline_seats_witness :
  (exists p, cell cursoOnline 7 9 = Some p /\ number p = Some 150%Z /\
             shown_occupied p) /\
  (exists p, cell cursoOnline 7 10 = Some p /\ number p = Some 151%Z /\
             shown_available 151 p).
Proof.
  assert (Hin : forall row seat p,
             cell cursoOnline row seat = Some p -> In p (concat cursoOnline)).
  { intros row seat p Hp. unfold cell in Hp.
    destruct (nth_error cursoOnline row) as [r|] eqn:Hr; [|discriminate].
    apply in_concat. exists r. split; eapply nth_error_In; eassumption. }
  destruct cursoOnline_seats as (_ & _ & Hcell & Hseat).
  split.
  - destruct (Hcell 7%nat 9%nat) as (p & Hp & Hn); [lia | lia |].
    exists p. split; [exact Hp|]. split; [exact Hn|].
    apply (Hseat p 150%Z); [exact (Hin _ _ _ Hp) | exact Hn | lia].
  - destruct (Hcell 7%nat 10%nat) as (p & Hp & Hn); [lia | lia |].
    exists p. split; [exact Hp|]. split; [exact Hn|].
    apply (Hseat p 151%Z); [exact (Hin _ _ _ Hp) | exact Hn | lia].
Defined.

(* ================================================================== *)
(** ** The seat icon *)
(* ================================================================== *)

(** C7. An icon given [showNumber = false] shows no numeric label,
    whatever its [number] property and its other properties are; the
    three icons the demo renders without numbers are given
    [showNumber = false] and show none. *)
Theorem showNumber_false_hides_number :
  forall showNumber_default : bool,
    (forall p : SeatIconProps,
        showNumber p = Some false ->
        SeatIcon_label showNumber_default p = None) /\
    Forall (fun p => showNumber p = Some false /\
                     SeatIcon_label showNumber_default p = None) sinNumeros.
Proof.
  intros d.
  assert (Hhide : forall p, showNumber p = Some false -> SeatIcon_label d p = None).
  { intros p Hshow. unfold SeatIcon_label. now rewrite Hshow. }
  split; [exact Hhide|].
  repeat constructor; apply Hhide; reflexivity.
Qed.

Lemma showNumber_false_hides_number_witness :
  SeatIcon_label true
    {| number := Some 42%Z; status := available; size := md;
       showNumber := Some false; onClick := None |} = None.
Proof.
  apply (showNumber_false_hides_number true). reflexivity.
Defined.

(* ================================================================== *)
(** ** More on the login form *)
(* ================================================================== *)

Import LoginFormHistory.

Lemma has_errors_blank (data : LoginFormData) :
  has_errors (zodResolver loginSchema data) =
  (usuario data =? "")%string || (clave data =? "")%string.
Proof. destruct data as [[|a u] [|b c]]; reflexivity. Qed.

Lemma eqb_blank (x : string) : (x =? "")%string = false <-> x <> "".
Proof. destruct x; cbn; split; intros; congruence. Qed.

(** The complete trace of the handler on its two paths. *)
Lemma trace_onSubmit (validarRUT : string -> RutResult)
      (login : string -> string -> Settled bool)
      (data : LoginFormData) (s : Store) :
  let r := run validarRUT login (onSubmit data) s in
  validarRUT_calls (trace r) = [usuario data] /\
  login_calls (trace r) =
    (if valido (validarRUT (usuario data)) then [(usuario data, clave data)]
     else []) /\
  completion r = Resolved tt.
Proof.
  cbv zeta. destruct (valido (validarRUT (usuario data))) eqn:Hrut.
  - destruct (exec_onSubmit_accepted validarRUT data s Hrut) as (k & E & Hk).
    rewrite (run_onSubmit_accepted validarRUT login data s Hrut), E.
    rewrite run_after_login.
    destruct (login (usuario data) (clave data)) as [[|]|e]; repeat split.
  - rewrite (run_onSubmit_rejected validarRUT login data s Hrut).
    rewrite (exec_onSubmit_rejected validarRUT data s Hrut). repeat split.
Qed.

(** X1. Behind [handleSubmit] the two layers run in order and each one
    gates the next: [validarRUT] is consulted, once and on the username,
    only when neither field is empty; [login] is called, once and with
    the two field values, only when in addition [validarRUT] accepted
    the username; in every case the handler's promise resolves. *)
Theorem two_layers_gate_login :
  forall (validarRUT : string -> RutResult)
         (login : string -> string -> Settled bool)
         (data : LoginFormData) (s : Store),
    let r := run validarRUT login (handleSubmit onSubmit data) s in
    let blank := ((usuario data =? "") || (clave data =? ""))%string in
    validarRUT_calls (trace r) = (if blank then [] else [usuario data]) /\
    login_calls (trace r) =
      (if blank then []
       else if valido (validarRUT (usuario data))
            then [(usuario data, clave data)] else []) /\
    completion r = Resolved tt.
Proof.
  intros v l data s r blank. subst r blank.
  rewrite <- has_errors_blank.
  destruct (has_errors (zodResolver loginSchema data)) eqn:Herr.
  - rewrite (run_handleSubmit_blocked v l data s Herr). repeat split.
  - rewrite (run_handleSubmit_passed v l data s Herr). cbn.
    apply trace_onSubmit.
Qed.

(** X2. The password reaches neither the logger nor the component's
    state: two submissions of the same username whose [login] calls
    settle alike, whatever the two passwords, leave the same logger
    calls and the same store. *)
Theorem password_never_logged :
  forall (validarRUT : string -> RutResult)
         (login1 login2 : string -> string -> Settled bool)
         (user clave1 clave2 : string) (s : Store),
    login1 user clave1 = login2 user clave2 ->
    let r1 := run validarRUT login1
                  (onSubmit {| usuario := user; clave := clave1 |}) s in
    let r2 := run validarRUT login2
                  (onSubmit {| usuario := user; clave := clave2 |}) s in
    logged (trace r1) = logged (trace r2) /\
    final_store r1 = final_store r2.
Proof.
  intros v l1 l2 u c1 c2 s Hsame r1 r2. subst r1 r2.
  destruct (valido (v u)) eqn:Hrut.
  - destruct (exec_onSubmit_accepted v {| usuario := u; clave := c1 |} s Hrut)
      as (k1 & E1 & _).
    destruct (exec_onSubmit_accepted v {| usuario := u; clave := c2 |} s Hrut)
      as (k2 & E2 & _).
    rewrite (run_onSubmit_accepted v l1 {| usuario := u; clave := c1 |} s Hrut).
    rewrite (run_onSubmit_accepted v l2 {| usuario := u; clave := c2 |} s Hrut).
    rewrite E1, E2, !run_after_login. cbn [usuario clave].
    rewrite Hsame.
    destruct (l2 u c2) as [[|]|e]; split; reflexivity.
  - rewrite (run_onSubmit_rejected v l1 {| usuario := u; clave := c1 |} s Hrut).
    rewrite (run_onSubmit_rejected v l2 {| usuario := u; clave := c2 |} s Hrut).
    rewrite (exec_onSubmit_rejected v {| usuario := u; clave := c1 |} s Hrut).
    rewrite (exec_onSubmit_rejected v {| usuario := u; clave := c2 |} s Hrut).
    split; reflexivity.
Qed.

Lemma password_never_logged_witness :
  let r1 := run validarRUT_formato (fun _ _ => Resolved false)
                (onSubmit {| usuario := "12345678-5"; clave := "user123" |})
                initialStore in
  let r2 := run validarRUT_formato (fun _ _ => Resolved false)
                (onSubmit {| usuario := "12345678-5"; clave := "hunter2" |})
                initialStore in
  logged (trace r1) = logged (trace r2) /\ final_store r1 = final_store r2.
Proof.
  apply (password_never_logged validarRUT_formato
           (fun _ _ => Resolved false) (fun _ _ => Resolved false)
           "12345678-5" "user123" "hunter2" initialStore).
  reflexivity.
Defined.

(** The store the handler ends in: the banner it decided and [loading]
    down, on top of whatever store it started from. *)
Lemma final_store_onSubmit (validarRUT : string -> RutResult)
      (login : string -> string -> Settled bool) (data : LoginFormData) :
  exists banner : string,
    forall s : Store,
      final_store (run validarRUT login (onSubmit data) s)
      = setLoading false (setAuthError banner s).
Proof.
  destruct (valido (validarRUT (usuario data))) eqn:Hrut.
  - destruct (login (usuario data) (clave data)) as [[|]|e] eqn:Hl;
      [exists "" | exists credentials_banner | exists generic_banner];
      intros s;
      destruct (exec_onSubmit_accepted validarRUT data s Hrut) as (k & E & _);
      rewrite (run_onSubmit_accepted validarRUT login data s Hrut), E;
      rewrite run_after_login, Hl; reflexivity.
  - exists (rut_banner (mensaje (validarRUT (usuario data)))). intros s.
    rewrite (run_onSubmit_rejected validarRUT login data s Hrut).
    rewrite (exec_onSubmit_rejected validarRUT data s Hrut). reflexivity.
Qed.

(** X3. What an attempt leaves behind does not depend on what came
    before it: from any two stores the handler ends with the same banner
    and the same [loading] flag; it never writes the password toggle,
    the tooltip flag or the field errors; and running it again on the
    same data with the same answers changes nothing more. *)
Theorem attempt_forgets_earlier_attempts :
  forall (validarRUT : string -> RutResult)
         (login : string -> string -> Settled bool)
         (data : LoginFormData) (s1 s2 : Store),
    let r1 := run validarRUT login (onSubmit data) s1 in
    let r2 := run validarRUT login (onSubmit data) s2 in
    authError (hooks (final_store r1)) = authError (hooks (final_store r2)) /\
    loading (hooks (final_store r1)) = loading (hooks (final_store r2)) /\
    showPassword (hooks (final_store r1)) = showPassword (hooks s1) /\
    showForgotTooltip (hooks (final_store r1)) = showForgotTooltip (hooks s1) /\
    errors (final_store r1) = errors s1 /\
    final_store (run validarRUT login (onSubmit data) (final_store r1))
      = final_store r1.
Proof.
  intros v l data s1 s2 r1 r2. subst r1 r2.
  destruct (final_store_onSubmit v l data) as (banner & Hfinal).
  rewrite !Hfinal. repeat split.
Qed.

(* ================================================================== *)
(** ** Histories of the mounted form *)
(* ================================================================== *)

Lemma login_calls_app (tr1 tr2 : list Event) :
  login_calls (tr1 ++ tr2) = login_calls tr1 ++ login_calls tr2.
Proof.
  induction tr1 as [|ev tr1 IH]; [reflexivity|].
  destruct ev as [a | rut | u c]; cbn; now rewrite ?IH.
Qed.

Lemma awaiting_after_app (tr1 tr2 : list Event) :
  forall w, awaiting_after w (tr1 ++ tr2)
            = awaiting_after (awaiting_after w tr1) tr2.
Proof.
  induction tr1 as [|ev tr1 IH]; intros w; [reflexivity|].
  destruct ev as [[lvl scope msg payload | [|] | m | u c] | rut | u c];
    cbn; apply IH.
Qed.

Lemma calls_in_turn_app (tr1 tr2 : list Event) :
  forall w, calls_in_turn w (tr1 ++ tr2)
            = calls_in_turn w tr1 && calls_in_turn (awaiting_after w tr1) tr2.
Proof.
  induction tr1 as [|ev tr1 IH]; intros w; [reflexivity|].
  destruct ev as [[lvl scope msg payload | [|] | m | u c] | rut | u c];
    cbn; rewrite ?IH, ?andb_assoc; reflexivity.
Qed.

Section Histories.

Variable validarRUT : string -> RutResult.

(** What one accepted click on the submit control adds to the history. *)
Lemma submitForm_history (f : Form) :
  exists tr,
    history (submitForm validarRUT f) = history f ++ tr /\
    Forall (validated validarRUT) (login_calls tr) /\
    calls_in_turn false tr = true /\
    awaiting_after false tr =
      match pending (submitForm validarRUT f) with
      | Some _ => true
      | None => false
      end.
Proof.
  unfold submitForm.
  destruct (has_errors (zodResolver loginSchema (values f))) eqn:Herr.
  - rewrite (exec_handleSubmit_blocked validarRUT (values f) (store f) Herr).
    eexists. split; [reflexivity|]. repeat split. constructor.
  - rewrite (exec_handleSubmit_passed validarRUT (values f) (store f) Herr).
    destruct (valido (validarRUT (usuario (values f)))) eqn:Hrut.
    + destruct (exec_onSubmit_accepted validarRUT (values f)
                  (apply_action (SetFieldErrors
                     (usuario_error (zodResolver loginSchema (values f)))
                     (clave_error (zodResolver loginSchema (values f))))
                     (store f)) Hrut) as (k & E & Hk).
      rewrite E. eexists. split; [reflexivity|]. repeat split.
      cbn. constructor; [|constructor].
      rewrite has_errors_blank in Herr. apply orb_false_elim in Herr.
      destruct Herr as [Hu Hc]. repeat split; cbn.
      * now apply eqb_blank.
      * now apply eqb_blank.
      * exact Hrut.
    + rewrite (exec_onSubmit_rejected validarRUT (values f) _ Hrut).
      eexists. split; [reflexivity|]. repeat split. constructor.
Qed.

(** What the settling of the [login] call adds to the history. *)
Lemma settle_history (f : Form) (k : Settled bool -> Prog unit)
      (o : Settled bool) :
  (forall o', k o' = after_login o') ->
  exists tr,
    history (settle validarRUT k o f) = history f ++ tr /\
    login_calls tr = [] /\
    calls_in_turn true tr = true /\
    awaiting_after true tr = false.
Proof.
  intros Hk. unfold settle. rewrite Hk.
  destruct o as [[|]|e]; eexists; (split; [reflexivity|]); repeat split.
Qed.

Lemma reachable_history (f : Form) :
  reachable validarRUT f ->
  Forall (validated validarRUT) (login_calls (history f)) /\
  calls_in_turn false (history f) = true /\
  awaiting_after false (history f) =
    match pending f with Some _ => true | None => false end.
Proof.
  induction 1 as [| f i f' Hreach IH Hstep].
  - repeat split. constructor.
  - pose proof (reachable_invariant validarRUT f Hreach) as Hinv.
    unfold form_invariant in Hinv.
    destruct IH as (Hval & Hturn & Hwait).
    destruct Hstep as [f data | f | f b | f Henabled | f k o Hpending].
    + repeat split; assumption.
    + repeat split; assumption.
    + repeat split; assumption.
    + cbn in Henabled.
      destruct (pending f) as [k|] eqn:Hp;
        [destruct Hinv as [Hload _]; congruence|].
      destruct (submitForm_history f) as (tr & -> & Hval' & Hturn' & Hwait').
      rewrite login_calls_app, calls_in_turn_app, awaiting_after_app.
      rewrite Hturn, Hwait, Hturn', Hwait'. repeat split.
      apply Forall_app. split; assumption.
    + rewrite Hpending in Hinv, Hwait. destruct Hinv as [_ Hk].
      destruct (settle_history f k o Hk) as (tr & Hhist & Hcalls & Hturn' & Hwait').
      destruct (settle_invariant validarRUT f k o Hk) as [Hnone _].
      rewrite Hhist, Hnone.
      rewrite login_calls_app, calls_in_turn_app, awaiting_after_app.
      rewrite Hturn, Hwait, Hturn', Hwait', Hcalls, app_nil_r.
      repeat split. exact Hval.
Qed.

End Histories.

(** The example session is one the form can go through. *)
Lemma session_reachable :
  reachable validarRUT_formato waiting_form /\
  forall o, reachable validarRUT_formato (settled_form o).
Proof.
  assert (Hwaiting : reachable validarRUT_formato waiting_form).
  { apply (reachable_step validarRUT_formato typed_form click_submit).
    - apply (reachable_step validarRUT_formato mount
               (change {| usuario := "12345678-5"; clave := "user123" |})).
      + apply reachable_mount.
      + apply step_change.
    - apply step_submit. reflexivity. }
  split; [exact Hwaiting|]. intros o.
  apply (reachable_step validarRUT_formato waiting_form (login_settles o)).
  - exact Hwaiting.
  - unfold settled_form.
    destruct (pending waiting_form) as [k|] eqn:Hp; [|discriminate Hp].
    now apply step_settle.
Defined.

(** X5. Whatever the user does with the mounted form, every call to
    [login] in its history was made with a non-empty username that
    [validarRUT] accepted and a non-empty password. *)
Theorem login_only_with_validated_credentials :
  forall (validarRUT : string -> RutResult) (f : Form),
    reachable validarRUT f ->
    forall usuario clave : string,
      In (usuario, clave) (login_calls (history f)) ->
      usuario <> "" /\ clave <> "" /\ valido (validarRUT usuario) = true.
Proof.
  intros v f Hreach u c Hin.
  destruct (reachable_history v f Hreach) as (Hval & _ & _).
  rewrite Forall_forall in Hval. exact (Hval (u, c) Hin).
Qed.

Lemma login_only_with_validated_credentials_witness :
  In ("12345678-5", "user123")
     (login_calls (history (settled_form (Resolved false)))) /\
  valido (validarRUT_formato "12345678-5") = true.
Proof.
  pose proof session_reachable as [_ Hsettled].
  assert (Hin : In ("12345678-5", "user123")
                   (login_calls (history (settled_form (Resolved false)))))
    by (left; reflexivity).
  split; [exact Hin|].
  apply (login_only_with_validated_credentials validarRUT_formato _
           (Hsettled (Resolved false)) "12345678-5" "user123" Hin).
Defined.

(** X6. With the submit control disabled while [loading] is set, calls
    to [login] never overlap: in the history of every reachable form
    each call comes after the handler of the previous call has finished,
    and a call is unanswered at the end of the history exactly when a
    handler is suspended. *)
Theorem login_calls_never_overlap :
  forall (validarRUT : string -> RutResult) (f : Form),
    reachable validarRUT f ->
    calls_in_turn false (history f) = true /\
    (awaiting_after false (history f) = true <-> pending f <> None).
Proof.
  intros v f Hreach.
  destruct (reachable_history v f Hreach) as (_ & Hturn & Hwait).
  split; [exact Hturn|]. rewrite Hwait.
  destruct (pending f); split; congruence.
Qed.

Lemma login_calls_never_overlap_witness :
  calls_in_turn false (history (settled_form (Resolved true))) = true /\
  calls_in_turn false (history waiting_form) = true /\
  awaiting_after false (history waiting_form) = true.
Proof.
  pose proof session_reachable as [Hwaiting Hsettled].
  split; [|split].
  - exact (proj1 (login_calls_never_overlap validarRUT_formato _
                    (Hsettled (Resolved true)))).
  - exact (proj1 (login_calls_never_overlap validarRUT_formato _ Hwaiting)).
  - apply (proj2 (login_calls_never_overlap validarRUT_formato _ Hwaiting)).
    discriminate.
Defined.

(** X7. Nothing but the settling of [login] ends the submitting state:
    while a handler is suspended, typing, the eye button and the tooltip
    leave it suspended with the submit control disabled (there is no
    cancellation and no timeout), and the settling of the call, in
    whichever way, returns a form whose submit control is enabled; with
    no handler suspended a submission can always start. *)
Theorem only_settling_ends_submitting :
  forall (validarRUT : string -> RutResult) (f : Form),
    reachable validarRUT f ->
    match pending f with
    | Some k =>
        forall (i : Input) (f' : Form),
          step validarRUT f i f' ->
          match i with
          | login_settles _ =>
              pending f' = None /\
              disabled (Button (submit (render (store f')))) = false
          | _ =>
              pending f' = Some k /\
              disabled (Button (submit (render (store f')))) = true
          end
    | None => exists f', step validarRUT f click_submit f'
    end.
Proof.
  intros v f Hreach.
  pose proof (reachable_invariant v f Hreach) as Hinv.
  unfold form_invariant in Hinv.
  destruct (pending f) as [k|] eqn:Hp.
  - destruct Hinv as [Hload Hk]. intros i f' Hstep.
    destruct Hstep as [f data | f | f b | f Henabled | f k' o Hpending].
    + split; assumption.
    + split; assumption.
    + split; assumption.
    + cbn in Henabled. congruence.
    + assert (k' = k) by congruence. subst k'.
      apply (settle_invariant v f k o Hk).
  - exists (submitForm v f). apply step_submit. exact Hinv.
Qed.

Lemma only_settling_ends_submitting_witness :
  reachable validarRUT_formato waiting_form /\
  forall (o : Settled bool) (f' : Form),
    step validarRUT_formato waiting_form (login_settles o) f' ->
    pending f' = None /\
    disabled (Button (submit (render (store f')))) = false.
Proof.
  pose proof session_reachable as [Hwaiting _].
  split; [exact Hwaiting|]. intros o f' Hstep.
  exact (only_settling_ends_submitting validarRUT_formato waiting_form Hwaiting
           (login_settles o) f' Hstep).
Defined.

(* ================================================================== *)
(** ** The whole demo screen *)
(* ================================================================== *)

Import SeatIconDemoScreen.

Section Clicks.

Local Open Scope Z_scope.

(** What the click handler of seat [n] does, for a seat that is not 0. *)
Lemma handleSeatClick_selects (n : Z) (st : DemoState) :
  n <> 0 ->
  selectedSeat (handleSeatClick n st) = Some n /\
  selection_panel (handleSeatClick n st)
    = panel ("¡Butaca " ++ number_to_string n ++ " seleccionada!")%string /\
  console (handleSeatClick n st)
    = console st ++ [("Butaca " ++ number_to_string n ++ " seleccionada")%string].
Proof.
  intros Hn. unfold selection_panel. cbn.
  apply Z.eqb_neq in Hn. rewrite Hn. repeat split.
Qed.

(** A handler found in a simulated grid belongs to a free seat above the
    threshold and is the click handler of that seat's own number. *)
Lemma simulated_grid_handler (rows cols : nat) (threshold : Z) (sz : SeatSize)
      (p : SeatIconProps) (h : DemoState -> DemoState) :
  In p (concat (simulated_grid rows cols threshold sz)) ->
  onClick p = Some h ->
  exists n, number p = Some n /\ threshold < n /\ status p = available /\
            h = handleSeatClick n.
Proof.
  intros Hin Hh.
  destruct (simulated_grid_In rows cols threshold sz p Hin)
    as (row & seat & _ & _ & ->).
  unfold simulated_seat in *. cbn in *.
  destruct (Z.leb_spec (Z.of_nat row * Z.of_nat cols + Z.of_nat seat + 1) threshold)
    as [Hle|Hgt]; cbn in Hh; [discriminate|].
  injection Hh as <-. eexists. repeat split. exact Hgt.
Qed.

Lemma interactividad_In (st : DemoState) (e : SeatIconElement) :
  In e (interactividad st) ->
  exists num,
    (num = 10 \/ num = 11 \/ num = 12 \/ num = 13 \/ num = 14) /\
    key e = num /\
    number (props e) = Some num /\
    status (props e) = available /\
    onClick (props e) = Some (handleSeatClick num) /\
    className e = if selected_is st num
                  then "ring-2 ring-blue-500 ring-offset-2"%string
                  else ""%string.
Proof.
  unfold interactividad. rewrite in_map_iff. intros (num & <- & Hnum).
  exists num. cbn in Hnum. repeat split. lia.
Qed.

End Clicks.

(** X8. On the whole screen only seats shown as available can be
    clicked, and every click handler selects the number of its own seat:
    after the click that number is the selected seat, the panel reads
    '¡Butaca n seleccionada!' (no handler selects seat 0, for which the
    panel would not show), and one line 'Butaca n seleccionada' is
    appended to the console. *)
Theorem clicks_select_their_own_seat :
  forall (st : DemoState) (p : SeatIconProps) (h : DemoState -> DemoState),
    In p (icons st) ->
    onClick p = Some h ->
    status p = available /\
    exists n : Z,
      number p = Some n /\
      forall st' : DemoState,
        selectedSeat (h st') = Some n /\
        selection_panel (h st')
          = panel ("¡Butaca " ++ number_to_string n ++ " seleccionada!")%string /\
        console (h st')
          = console st' ++
            [("Butaca " ++ number_to_string n ++ " seleccionada")%string].
Proof.
  intros st p h Hin Hh. unfold icons in Hin. rewrite !in_app_iff in Hin.
  destruct Hin as [Hin | [Hin | [Hin | [Hin | [Hin | [Hin | Hin]]]]]].
  - cbn in Hin. repeat (destruct Hin as [<- | Hin]; [discriminate Hh|]). easy.
  - cbn in Hin. repeat (destruct Hin as [<- | Hin]; [discriminate Hh|]). easy.
  - cbn in Hin. repeat (destruct Hin as [<- | Hin]; [discriminate Hh|]). easy.
  - cbn in Hin. repeat (destruct Hin as [<- | Hin]; [discriminate Hh|]). easy.
  - apply in_map_iff in Hin. destruct Hin as (e & <- & He).
    destruct (interactividad_In st e He) as (num & Hnum & _ & Hn & Hs & Hc & _).
    rewrite Hc in Hh. injection Hh as <-.
    split; [exact Hs|]. exists num. split; [exact Hn|].
    intros st'. apply handleSeatClick_selects. lia.
  - destruct (simulated_grid_handler 5 6 18 md p h Hin Hh)
      as (n & Hn & Hgt & Hs & ->).
    split; [exact Hs|]. exists n. split; [exact Hn|].
    intros st'. apply handleSeatClick_selects. lia.
  - destruct (simulated_grid_handler 10 20 150 sm p h Hin Hh)
      as (n & Hn & Hgt & Hs & ->).
    split; [exact Hs|]. exists n. split; [exact Hn|].
    intros st'. apply handleSeatClick_selects. lia.
Qed.

Lemma clicks_select_their_own_seat_witness :
  exists (p : SeatIconProps) (h : DemoState -> DemoState),
    cell cursoOnline 7 10 = Some p /\ onClick p = Some h /\
    selection_panel (h initialDemoState) = panel "¡Butaca 151 seleccionada!".
Proof.
  eexists. exists (handleSeatClick 151). split; [reflexivity|].
  split; [reflexivity|].
  destruct (clicks_select_their_own_seat initialDemoState
              (simulated_seat 20 150 sm 7 10) (handleSeatClick 151))
    as (_ & n & Hn & Hclick).
  - unfold icons. do 6 (apply in_or_app; right).
    apply in_concat.
    exists (Array_from 20 (fun seat => simulated_seat 20 150 sm 7 seat)).
    split; [do 7 right; left; reflexivity | do 10 right; left; reflexivity].
  - reflexivity.
  - injection Hn as <-. apply Hclick.
Defined.

(** X9. In the row of "Interactividad" the ring marks the seat clicked
    last and no other: after the click on a seat of the row, the row is
    rendered with the ring on the element of that key alone; before any
    selection no element has it; and after a click on a seat of either
    simulated grid, which share the selection with the row, no element
    of the row has it. *)
Theorem interactive_row_marks_clicked_seat :
  forall st : DemoState,
    (forall (e : SeatIconElement) (h : DemoState -> DemoState),
        In e (interactividad st) ->
        onClick (props e) = Some h ->
        forall e', In e' (interactividad (h st)) ->
                   className e' =
                   if (key e' =? key e)%Z
                   then "ring-2 ring-blue-500 ring-offset-2" else "") /\
    (selectedSeat st = None ->
     forall e, In e (interactividad st) -> className e = "") /\
    (forall (p : SeatIconProps) (h : DemoState -> DemoState),
        In p (concat aulaPresencial ++ concat cursoOnline) ->
        onClick p = Some h ->
        forall e', In e' (interactividad (h st)) -> className e' = "").
Proof.
  intros st. split; [|split].
  - intros e h He Hh e' He'.
    destruct (interactividad_In st e He) as (num & Hnum & Hk & _ & _ & Hc & _).
    rewrite Hc in Hh. injection Hh as <-.
    destruct (interactividad_In _ e' He') as (num' & Hnum' & Hk' & _ & _ & _ & ->).
    rewrite Hk, Hk'. unfold selected_is. cbn. now rewrite Z.eqb_sym.
  - intros Hnone e He.
    destruct (interactividad_In st e He) as (num & _ & _ & _ & _ & _ & ->).
    unfold selected_is. now rewrite Hnone.
  - intros p h Hin Hh e' He'.
    assert (Hn : exists n, (18 < n)%Z /\ h = handleSeatClick n).
    { rewrite in_app_iff in Hin. destruct Hin as [Hin | Hin].
      - destruct (simulated_grid_handler 5 6 18 md p h Hin Hh)
          as (n & _ & Hgt & _ & ->). exists n. split; [lia | reflexivity].
      - destruct (simulated_grid_handler 10 20 150 sm p h Hin Hh)
          as (n & _ & Hgt & _ & ->). exists n. split; [lia | reflexivity]. }
    destruct Hn as (n & Hgt & ->).
    destruct (interactividad_In _ e' He') as (num' & Hnum' & _ & _ & _ & _ & ->).
    unfold selected_is. cbn.
    destruct (Z.eqb_spec n num') as [->|_]; [lia | reflexivity].
Qed.

Lemma interactive_row_marks_clicked_seat_witness :
  map className (interactividad (handleSeatClick 12 initialDemoState))
  = [""; ""; "ring-2 ring-blue-500 ring-offset-2"; ""; ""] /\
  forall e', In e' (interactividad (handleSeatClick 12 initialDemoState)) ->
             className e' =
             if (key e' =? 12)%Z
             then "ring-2 ring-blue-500 ring-offset-2" else "".
Proof.
  split; [reflexivity|].
  apply (proj1 (interactive_row_marks_clicked_seat initialDemoState)
           {| key := 12%Z;
              props := {| number := Some 12%Z; status := available; size := md;
                          showNumber := Some true;
                          onClick := Some (handleSeatClick 12) |};
              className := "" |}
           (handleSeatClick 12)).
  - do 2 right. left. reflexivity.
  - reflexivity.
Defined.

(** X10. The texts around the two simulated grids say what the grids
    show: in reading order the classroom has 18 occupied seats followed
    by 12 clickable available ones, the online course 150 followed by
    50, and the headings and captions of the screen are the ones these
    counts spell. *)
Theorem grid_captions_match_grids :
  map status (concat aulaPresencial)
    = repeat occupied 18 ++ repeat available 12 /\
  map is_clickable (concat aulaPresencial)
    = repeat false 18 ++ repeat true 12 /\
  aulaPresencial_heading = heading_of "Aula Presencial" aulaPresencial /\
  aulaPresencial_caption = caption_of aulaPresencial /\
  map status (concat cursoOnline)
    = repeat occupied 150 ++ repeat available 50 /\
  map is_clickable (concat cursoOnline)
    = repeat false 150 ++ repeat true 50 /\
  cursoOnline_heading = heading_of "Curso Online" cursoOnline /\
  cursoOnline_caption = caption_of cursoOnline.
Proof. repeat split; vm_compute; reflexivity. Qed.
